(** * pycomm3.packets.logix: tag-service packets

    A shallow embedding of [pycomm3/packets/logix.py]: the read, write,
    fragmented, read-modify-write and multi-service request packets, and
    the properties of their message layout and of their send loops.

    Python exceptions are an explicit [result]; the driver a packet talks
    to (connection size, sequence number, what was sent, what is still to
    be received) is an explicit state threaded through a small state and
    exception monad. *)

From Stdlib Require Import String Ascii.
From Stdlib Require Import ZArith List Bool Lia Sorted.
From Stdlib Require Import Strings.Byte.
Import ListNotations.

Local Open Scope string_scope.
Local Open Scope Z_scope.
Local Open Scope list_scope.

(** ** Exceptions and results *)

Inductive exn : Type :=
| RequestError (msg : string)
| TypeError
| AttributeError
| ValueError
| IndexError
| KeyError
| StopIteration
| StructError
| CommError.

Inductive result (A : Type) : Type :=
| Ok (a : A)
| Raise (e : exn).

Arguments Ok {A} a.
Arguments Raise {A} e.

Definition rbind {A B} (r : result A) (k : A -> result B) : result B :=
  match r with
  | Ok a => k a
  | Raise e => Raise e
  end.

Declare Scope result_scope.
Delimit Scope result_scope with res.
Notation "x <- c ;; k" := (rbind c (fun x => k))
  (at level 61, c at next level, right associativity) : result_scope.

Fixpoint mapM {A B} (f : A -> result B) (l : list A) : result (list B) :=
  match l with
  | [] => Ok []
  | x :: xs =>
      (y <- f x ;;
       ys <- mapM f xs ;;
       Ok (y :: ys))%res
  end.

(** ** Bytes *)

Definition bytes := list byte.

Definition byte_of_Z (z : Z) : byte :=
  match Byte.of_N (Z.to_N (z mod 256)) with
  | Some b => b
  | None => x00
  end.

Definition Z_of_byte (b : byte) : Z := Z.of_N (Byte.to_N b).

(** [b''.join(chunks)] *)
Definition join (chunks : list bytes) : bytes := concat chunks.

(** [len(x)] as a Python integer *)
Definition len {A} (l : list A) : Z := Z.of_nat (length l).

(** Little-endian encoding of [z] on [n] bytes (two's complement when [z]
    is negative). *)
Fixpoint le_bytes (n : nat) (z : Z) : bytes :=
  match n with
  | O => []
  | S k => byte_of_Z (z mod 256) :: le_bytes k (z / 256)
  end.

Fixpoint le_value (b : bytes) : Z :=
  match b with
  | [] => 0
  | x :: xs => Z_of_byte x + 256 * le_value xs
  end.

(** Modelled from the spec: the [Pack] and [Unpack] helpers of
    [pycomm3.bytes_] are not part of this file; element counts, offsets and
    mask widths are "a fixed-width unsigned integer", an offset-table entry
    is a "2-byte offset".  They are [struct.pack] with the little-endian
    formats of CIP: ['<H'] (uint), ['<i'] (dint), ['<I'] (udint), ['<Q']
    (ulint); a value outside the format's range raises [struct.error]. *)
Definition Pack_uint (z : Z) : result bytes :=
  if (0 <=? z) && (z <? 65536) then Ok (le_bytes 2 z) else Raise StructError.

Definition Pack_dint (z : Z) : result bytes :=
  if (- 2147483648 <=? z) && (z <? 2147483648)
  then Ok (le_bytes 4 z) else Raise StructError.

Definition Pack_udint (z : Z) : result bytes :=
  if (0 <=? z) && (z <? 4294967296)
  then Ok (le_bytes 4 z) else Raise StructError.

Definition Pack_ulint (z : Z) : result bytes :=
  if (0 <=? z) && (z <? 18446744073709551616)
  then Ok (le_bytes 8 z) else Raise StructError.

(** [Unpack.uint(st)] reads the two leading bytes of [st]. *)
Definition Unpack_uint (st : bytes) : result Z :=
  match st with
  | b0 :: b1 :: _ => Ok (le_value [b0; b1])
  | _ => Raise StructError
  end.

(** ** Python slices and ranges *)

(** An index of a slice, clamped as Python does: a negative index counts
    from the end. *)
Definition slice_index {A} (l : list A) (k : Z) : Z :=
  if k <? 0 then Z.max 0 (len l + k) else Z.min k (len l).

(** [l[i:j]] *)
Definition slice {A} (l : list A) (i j : Z) : list A :=
  let i' := slice_index l i in
  let j' := slice_index l j in
  firstn (Z.to_nat (j' - i')) (skipn (Z.to_nat i') l).

(** [l[i:]], which is also [l[i:None]] *)
Definition slice_from {A} (l : list A) (i : Z) : list A :=
  skipn (Z.to_nat (slice_index l i)) l.

(** [l[:j]] *)
Definition slice_to {A} (l : list A) (j : Z) : list A :=
  firstn (Z.to_nat (slice_index l j)) l.

(** [range(start, stop, step)]; a zero step raises [ValueError]. *)
Definition range (start stop step : Z) : result (list Z) :=
  if step =? 0 then Raise ValueError
  else
    let count :=
      if 0 <? step
      then (stop - start + step - 1) / step
      else (start - stop - step - 1) / (- step) in
    Ok (map (fun k => start + Z.of_nat k * step) (seq 0 (Z.to_nat count))).

(** ** Python objects that end up in a message *)

(** What the packets put in [_msg] and accept as a value: a byte string, a
    sequence of atomic element values, or [None]. *)
Inductive pyobj : Type :=
| PyBytes (b : bytes)
| PyList (l : list Z)
| PyNone.

Definition of_path (p : option bytes) : pyobj :=
  match p with
  | Some b => PyBytes b
  | None => PyNone
  end.

(** [len(x)]: [None] has no length. *)
Definition py_len (x : pyobj) : result Z :=
  match x with
  | PyBytes b => Ok (len b)
  | PyList l => Ok (len l)
  | PyNone => Raise TypeError
  end.

(** [x[i:j]] on a byte string or a list. *)
Definition py_slice (x : pyobj) (i j : Z) : result pyobj :=
  match x with
  | PyBytes b => Ok (PyBytes (slice b i j))
  | PyList l => Ok (PyList (slice l i j))
  | PyNone => Raise TypeError
  end.

(** Truth value of [self.error] and of an optional byte string: [None] and
    the empty string are false. *)
Definition truthy_str (e : option string) : bool :=
  match e with
  | None => false
  | Some s => negb (String.eqb s "")
  end.

Definition truthy_bytes (b : option bytes) : bool :=
  match b with
  | None => false
  | Some [] => false
  | Some _ => true
  end.

(** ** Tag descriptors *)

(** [tag_info['data_type']]: the type's name for an atomic tag, a
    definition holding [['template']['structure_handle']] for a struct. *)
Inductive data_type_info : Type :=
| TypeName (name : string)
| Template (structure_handle : Z).

(** The keys of the [tag_info] dict that this file reads. *)
Record TagInfo : Type := {
  ti_tag_type : string;          (* tag_info['tag_type'] *)
  ti_data_type_name : string;    (* tag_info['data_type_name'] *)
  ti_data_type : data_type_info  (* tag_info['data_type'] *)
}.

(** ** Responses *)

(** What the [send] loops read from and write to a response object:
    [service_status], [bytes_], [_error] and the decoded [value]. A
    response gets these attributes from the base class
    [SendUnitDataResponsePacket], which is outside this file. *)
Record Response : Type := {
  service_status : option Z;
  bytes_ : bytes;
  _error : option string;
  value : option pyobj
}.

Definition with_error (r : Response) (e : option string) : Response :=
  {| service_status := service_status r; bytes_ := bytes_ r;
     _error := e; value := value r |}.

Definition with_bytes_ (r : Response) (b : bytes) : Response :=
  {| service_status := service_status r; bytes_ := b;
     _error := _error r; value := value r |}.

(** ** Collaborators

    Names this file imports from the rest of the package: the service
    codes, the status constants, the type tables, the packers by type name,
    the request-path compiler and the value decoder. *)
Class Cip : Type := {
  Services_read_tag : bytes;
  Services_read_tag_fragmented : bytes;
  Services_write_tag : bytes;
  Services_write_tag_fragmented : bytes;
  Services_read_modify_write : bytes;
  Services_multiple_service_request : bytes;
  SUCCESS : Z;
  INSUFFICIENT_PACKETS : Z;
  (* DataType[name] *)
  DataType : string -> option Z;
  (* DataTypeSize.get(name) *)
  DataTypeSize : string -> option Z;
  (* Pack[name] *)
  Pack : string -> option (Z -> result bytes);
  tag_request_path : string -> TagInfo -> bool -> option bytes;
  (* request_path(ClassCode.message_router, 1) *)
  message_router_path : bytes;
  parse_read_reply : bytes -> TagInfo -> Z -> result pyobj;
  (* what build_message of the base class leaves in _msg *)
  base_build_message : list pyobj -> list pyobj
}.

(** Modelled from the spec: [is_valid()] and the truth value of a response
    are defined by a base class that is not part of this file; "Validity =
    general status is Success OR (for fragmented reads) insufficient
    packets". [fragmented_read] tells whether the response is that of a
    fragmented read. *)
Definition is_valid `{Cip} (fragmented_read : bool)
    (service_status : option Z) : bool :=
  match service_status with
  | Some s =>
      (s =? SUCCESS) || (fragmented_read && (s =? INSUFFICIENT_PACKETS))
  | None => false
  end.

(** [all(responses)] *)
Definition all_valid `{Cip} (fragmented_read : bool)
    (responses : list Response) : bool :=
  forallb (fun r => is_valid fragmented_read (service_status r)) responses.

(** ** The driver

    The packet's view of [self._driver] and of the transport: the
    negotiated connection size, the sequence number, the messages handed
    to [_send] so far, and the raw replies [_receive] will return. A
    message is recorded as the [_msg] list that [build_request] frames; the
    framing itself belongs to a base class outside this file. *)
Record Driver : Type := {
  connection_size : Z;
  _sequence : Z;
  sent : list (list pyobj);
  pending : list bytes
}.

Definition M (A : Type) : Type := Driver -> result A * Driver.

Definition ret {A} (a : A) : M A := fun d => (Ok a, d).

Definition bind {A B} (m : M A) (k : A -> M B) : M B :=
  fun d =>
    match m d with
    | (Ok a, d') => k a d'
    | (Raise e, d') => (Raise e, d')
    end.

Definition lift {A} (r : result A) : M A := fun d => (r, d).

Declare Scope driver_scope.
Delimit Scope driver_scope with drv.
Notation "x <- c ;; k" := (bind c (fun x => k))
  (at level 61, c at next level, right associativity) : driver_scope.
Notation "c ;;; k" := (bind c (fun _ => k))
  (at level 61, right associativity) : driver_scope.

(** [self._send(self.build_request())] with the current [_msg] *)
Definition _send (msg : list pyobj) : M unit :=
  fun d =>
    (Ok tt,
     {| connection_size := connection_size d; _sequence := _sequence d;
        sent := sent d ++ [msg]; pending := pending d |}).

(** [self._receive()]: the raw bytes of the next reply; no reply left is
    a failure of the transport. *)
Definition _receive : M bytes :=
  fun d =>
    match pending d with
    | [] => (Raise CommError, d)
    | r :: rs =>
        (Ok r,
         {| connection_size := connection_size d; _sequence := _sequence d;
            sent := sent d; pending := rs |})
    end.

Definition get_connection_size : M Z := fun d => (Ok (connection_size d), d).
Definition get_sequence : M Z := fun d => (Ok (_sequence d), d).
Definition pending_count : M nat := fun d => (Ok (length (pending d)), d).

(** ** TagServiceRequestPacket *)

Module TagServiceRequestPacket.

Record t : Type := {
  tag : string;
  elements : Z;
  tag_info : TagInfo;
  request_id : Z;
  _use_instance_id : bool;
  request_path : option bytes;
  _msg : list pyobj;
  error : option string
}.

(** Modelled from the spec: [super().__init__()] belongs to a base class
    outside this file; a request message is "built fresh", so a new packet
    starts with an empty [_msg] and no error. *)
Definition __init__ (tag : string) (elements : Z) (tag_info : TagInfo)
    (request_id : Z) (use_instance_id : bool) : t :=
  {| tag := tag; elements := elements; tag_info := tag_info;
     request_id := request_id; _use_instance_id := use_instance_id;
     request_path := None; _msg := []; error := None |}.

Definition set_request_path (self : t) (p : option bytes) : t :=
  {| tag := tag self; elements := elements self;
     tag_info := tag_info self; request_id := request_id self;
     _use_instance_id := _use_instance_id self;
     request_path := p; _msg := _msg self; error := error self |}.

Definition set_msg (self : t) (m : list pyobj) : t :=
  {| tag := tag self; elements := elements self;
     tag_info := tag_info self; request_id := request_id self;
     _use_instance_id := _use_instance_id self;
     request_path := request_path self; _msg := m; error := error self |}.

Definition set_error (self : t) (e : option string) : t :=
  {| tag := tag self; elements := elements self;
     tag_info := tag_info self; request_id := request_id self;
     _use_instance_id := _use_instance_id self;
     request_path := request_path self; _msg := _msg self; error := e |}.

End TagServiceRequestPacket.

(** ** TagServiceResponsePacket *)

Module TagServiceResponsePacket.

Record t : Type := {
  request : TagServiceRequestPacket.t;
  raw_data : bytes;
  tag : string;
  elements : Z;
  tag_info : TagInfo
}.

Definition __init__ (request : TagServiceRequestPacket.t)
    (raw_data : bytes) : t :=
  {| request := request; raw_data := raw_data;
     tag := TagServiceRequestPacket.tag request;
     elements := TagServiceRequestPacket.elements request;
     tag_info := TagServiceRequestPacket.tag_info request |}.

End TagServiceResponsePacket.

(** ** Calls of the response classes

    Every response class of this file has the signature
    [__init__(self, request, raw_data=None)], its own or the inherited one:
    [request] is required and at most two arguments are taken. Each
    [__init__] ends in [TagServiceResponsePacket.__init__], which reads
    [request.tag], [request.elements] and [request.tag_info] and then hands
    both arguments to the base class. *)

(** A positional argument, as the [send] loops pass them. *)
Inductive pyarg : Type :=
| ArgRequest (r : TagServiceRequestPacket.t)
| ArgBytes (b : bytes)
| ArgTagInfo (i : TagInfo)
| ArgInt (z : Z).

(** [SendUnitDataResponsePacket], the base class outside this file: the
    attributes its [__init__] gives a response built for a request, and
    the [parse_bytes] that the read loop calls on a response. *)
Class Base : Type := {
  base_init : TagServiceRequestPacket.t -> option pyarg -> Response;
  parse_bytes : Response -> result Response
}.

(** Python's binding of the positional arguments of a call to
    [(request, raw_data=None)]. *)
Definition bind_arguments (args : list pyarg)
    : result (pyarg * option pyarg) :=
  match args with
  | [request] => Ok (request, None)
  | [request; raw_data] => Ok (request, Some raw_data)
  | _ => Raise TypeError
  end.

(** [request.tag], [request.elements], [request.tag_info]: attributes of a
    request packet, and of nothing else that is passed here. *)
Definition request_attributes (request : pyarg)
    : result TagServiceRequestPacket.t :=
  match request with
  | ArgRequest r => Ok r
  | _ => Raise AttributeError
  end.

(** A call of a response class of this file with the positional
    arguments [args]. *)
Definition new_response `{Base} (args : list pyarg) : result Response :=
  (bound <- bind_arguments args ;;
   request <- request_attributes (fst bound) ;;
   Ok (base_init request (snd bound)))%res.

(** ** ReadTagRequestPacket *)

Module ReadTagRequestPacket.
Import TagServiceRequestPacket.

Definition t : Type := TagServiceRequestPacket.t.

Section WithCip.
Context `{Cip}.

Definition tag_service : bytes := Services_read_tag.

(** [_setup_message] with the service code of the class it is called
    on; [super()._setup_message()] is outside this file and is taken
    to leave the packet as it is. *)
Definition _setup_message_with (service : bytes) (self : t)
    : result t :=
  let self :=
    match request_path self with
    | None =>
        let self :=
          set_request_path self
            (tag_request_path (tag self) (tag_info self)
               (_use_instance_id self)) in
        match request_path self with
        | None =>
            set_error self (Some "Failed to build request path for tag")
        | Some _ => self
        end
    | Some _ => self
    end in
  (n <- Pack_uint (elements self) ;;
   Ok (set_msg self
         (_msg self ++
            [PyBytes service; of_path (request_path self); PyBytes n])))%res.

Definition _setup_message (self : t) : result t :=
  _setup_message_with tag_service self.

End WithCip.
End ReadTagRequestPacket.

(** ** ReadTagFragmentedRequestPacket *)

Module ReadTagFragmentedRequestPacket.
Import TagServiceRequestPacket.

Record t : Type := {
  super : ReadTagRequestPacket.t;
  offset : Z
}.

(** The argument of [from_request]: a plain or a fragmented read. *)
Inductive read_request : Type :=
| Plain (r : ReadTagRequestPacket.t)
| Fragmented (r : t).

(** The attributes both kinds of read request share. *)
Definition attributes (r : read_request) : TagServiceRequestPacket.t :=
  match r with
  | Plain p => p
  | Fragmented f => super f
  end.

Definition __init__ (tag : string) (elements : Z) (tag_info : TagInfo)
    (request_id : Z) (use_instance_id : bool) (offset : Z) : t :=
  {| super :=
       TagServiceRequestPacket.__init__ tag elements tag_info request_id
         use_instance_id;
     offset := offset |}.

Definition from_request (request : read_request) (offset : Z) : t :=
  let r := attributes request in
  let new_request :=
    __init__ (tag r) (elements r) (tag_info r) (request_id r)
      (_use_instance_id r) offset in
  {| super := set_request_path (super new_request) (request_path r);
     offset := ReadTagFragmentedRequestPacket.offset new_request |}.

Section WithCip.
Context `{Cip} `{Base}.

Definition tag_service : bytes := Services_read_tag_fragmented.

Definition _setup_message (self : t) : result t :=
  (s <- ReadTagRequestPacket._setup_message_with tag_service (super self) ;;
   o <- Pack_udint (offset self) ;;
   Ok {| super := set_msg s (_msg s ++ [PyBytes o]);
         offset := offset self |})%res.

Definition is_insufficient (r : Response) : bool :=
  match service_status r with
  | Some s => s =? INSUFFICIENT_PACKETS
  | None => false
  end.

(** One pass of the [while] loop up to the response: extend [_msg], send
    it, receive, and call [ReadTagFragmentedResponsePacket] with the reply,
    the tag description and the element count. *)
Definition round (self : t) (msg : list pyobj) (offset : Z)
    : M Response :=
  (n <- lift (Pack_uint (elements (super self))) ;;
   o <- lift (Pack_dint offset) ;;
   _send (msg ++
            [PyBytes Services_read_tag_fragmented;
             of_path (request_path (super self));
             PyBytes n; PyBytes o]) ;;;
   reply <- _receive ;;
   lift (new_response
           [ArgBytes reply; ArgTagInfo (tag_info (super self));
            ArgInt (elements (super self))]))%drv.

(** The [while offset is not None] loop. Every pass consumes one
    pending reply, so [fuel] passes are enough when [fuel] is the
    number of pending replies: [_receive] fails first. *)
Fixpoint rounds (fuel : nat) (self : t) (msg : list pyobj) (offset : Z)
    (responses : list Response) : M (list Response) :=
  (response <- round self msg offset ;;
   let responses := (responses ++ [response])%list in
   if is_insufficient response then
     match fuel with
     | O => lift (Raise CommError)
     | S fuel' =>
         seq <- get_sequence ;;
         s <- lift (Pack_uint seq) ;;
         rounds fuel' self [PyBytes s]
           (offset + len (bytes_ response)) responses
     end
   else ret responses)%drv.

(** The lines after the [if]: [ReadTagResponsePacket()], then its
    [_error] is set. *)
Definition failed_response (self : t) : result Response :=
  (failed_response <- new_response [] ;;
   Ok (with_error failed_response
         (if truthy_str (error (super self)) then error (super self)
          else Some "One or more fragment responses failed")))%res.

Definition send (self : t) : M Response :=
  if negb (truthy_str (error (super self))) then
    (fuel <- pending_count ;;
     responses <- rounds fuel self (_msg (super self)) 0 [] ;;
     if all_valid true responses then
       match rev responses with
       | [] => lift (Raise IndexError)
       | final_response :: _ =>
           lift (parse_bytes
                   (with_bytes_ final_response
                      (join (map bytes_ responses))))
       end
     else lift (failed_response self))%drv
  else lift (failed_response self).

End WithCip.
End ReadTagFragmentedRequestPacket.

(** ** WriteTagRequestPacket *)

Module WriteTagRequestPacket.
Import TagServiceRequestPacket.

Record t : Type := {
  super : TagServiceRequestPacket.t;
  value : pyobj;
  data_type : string;
  _packed_data_type : option bytes;
  (* read by the fragmented send; no method of this file assigns it *)
  _packed_type : option bytes
}.

Definition set_super (self : t) (s : TagServiceRequestPacket.t) : t :=
  {| super := s; value := value self; data_type := data_type self;
     _packed_data_type := _packed_data_type self;
     _packed_type := _packed_type self |}.

Definition set_packed_data_type (self : t) (p : option bytes) : t :=
  {| super := super self; value := value self;
     data_type := data_type self;
     _packed_data_type := p; _packed_type := _packed_type self |}.

(** [repr] of a type name (a name has no quote and no escape). *)
Definition repr_name (s : string) : string := ("'" ++ s ++ "'")%string.

Section WithCip.
Context `{Cip}.

Definition tag_service : bytes := Services_write_tag.

(** The request path a write is built with: the one passed in when it is
    not empty, the compiled one otherwise. *)
Definition resolved_path (tag : string) (tag_info : TagInfo)
    (use_instance_id : bool) (request_path : option bytes) : option bytes :=
  if truthy_bytes request_path then request_path
  else tag_request_path tag tag_info use_instance_id.

(** [__init__] with the service code of the class being built. *)
Definition __init___with (service : bytes) (tag : string) (elements : Z)
    (tag_info : TagInfo) (request_id : Z) (use_instance_id : bool)
    (value : pyobj) (request_path : option bytes) : result t :=
  let self :=
    {| super :=
         TagServiceRequestPacket.__init__ tag elements tag_info
           request_id use_instance_id;
       value := value;
       data_type := ti_data_type_name tag_info;
       _packed_data_type := None;
       _packed_type := None |} in
  let self :=
    set_super self
      (set_request_path (super self)
         (resolved_path tag tag_info use_instance_id request_path)) in
  match TagServiceRequestPacket.request_path (super self) with
  | None =>
      Ok (set_super self
            (set_error (super self)
               (Some "Failed to create request path for tag")))
  | Some path =>
      (packed <-
         (if String.eqb (ti_tag_type tag_info) "struct" then
            match value with
            | PyBytes _ =>
                match ti_data_type tag_info with
                | Template structure_handle =>
                    h <- Pack_uint structure_handle ;;
                    Ok ([xa0; x02] ++ h)%list
                | TypeName _ => Raise TypeError
                end
            | _ =>
                Raise (RequestError
                         "Writing UDTs only supports bytes for value")
            end
          else
            match DataType (data_type self) with
            | None =>
                Raise (RequestError
                         ("Unsupported data type: "
                          ++ repr_name (data_type self))%string)
            | Some code => Pack_uint code
            end) ;;
       let self := set_packed_data_type self (Some packed) in
       n <- Pack_uint elements ;;
       Ok (set_super self
             (set_msg (super self)
                (_msg (super self) ++
                   [PyBytes service; PyBytes path; PyBytes packed;
                    PyBytes n; value])%list)))%res
  end.

Definition __init__ := __init___with tag_service.

End WithCip.
End WriteTagRequestPacket.

(** ** WriteTagFragmentedRequestPacket *)

Module WriteTagFragmentedRequestPacket.
Import TagServiceRequestPacket.
Import WriteTagRequestPacket.

Definition t : Type := WriteTagRequestPacket.t.

Section WithCip.
Context `{Cip} `{Base}.

Definition tag_service : bytes := Services_write_tag_fragmented.

Definition __init__ := __init___with tag_service.

Definition from_request (request : WriteTagRequestPacket.t)
    : result t :=
  __init__ (tag (super request)) (elements (super request))
    (tag_info (super request)) (request_id (super request))
    (_use_instance_id (super request)) (value request) None.

(** [Pack[self.data_type]] for an atomic tag, [lambda x: x]
    ([None] here) otherwise. *)
Definition pack_func_of (self : t)
    : result (option (Z -> result bytes)) :=
  if String.eqb (ti_tag_type (tag_info (super self))) "atomic" then
    match Pack (data_type self) with
    | Some f => Ok (Some f)
    | None => Raise KeyError
    end
  else Ok None.

(** The wire bytes of a segment: a byte string goes as it is, a
    sequence is packed element by element and joined. *)
Definition segment_bytes_of (pack_func : option (Z -> result bytes))
    (segment : pyobj) : result bytes :=
  match segment with
  | PyBytes b => Ok b
  | PyList l =>
      match pack_func with
      | Some f => (chunks <- mapM f l ;; Ok (join chunks))%res
      | None =>
          match l with
          | [] => Ok []
          | _ :: _ => Raise TypeError
          end
      end
  | PyNone => Raise TypeError
  end.

(** [self._driver.connection_size - (len(self.request_path) +
    len(self._packed_type) + 9)] *)
Definition segment_size_of (connection_size : Z) (path packed : bytes)
    : Z :=
  connection_size - (len path + len packed + 9).

(** [self.value[i: i + segment_size] for i in range(0,
    len(self.value), segment_size)] *)
Definition segments_of (value : pyobj) (segment_size : Z)
    : result (list pyobj) :=
  (n <- py_len value ;;
   starts <- range 0 n segment_size ;;
   mapM (fun i => py_slice value i (i + segment_size)) starts)%res.

(** The [for] loop over the segments. *)
Fixpoint for_segments (self : t)
    (pack_func : option (Z -> result bytes)) (elements_packed : bytes)
    (segments : list pyobj) (msg : list pyobj) (offset : Z)
    (responses : list Response) : M (list Response) :=
  match segments with
  | [] => ret responses
  | segment :: segments' =>
      (segment_bytes <- lift (segment_bytes_of pack_func segment) ;;
       o <- lift (Pack_dint offset) ;;
       _send (msg ++
                [PyBytes Services_write_tag_fragmented;
                 of_path (request_path (super self));
                 of_path (_packed_type self);
                 PyBytes elements_packed;
                 PyBytes o;
                 PyBytes segment_bytes])%list ;;;
       reply <- _receive ;;
       response <- lift (new_response [ArgBytes reply]) ;;
       let responses := (responses ++ [response])%list in
       let offset := offset + len segment_bytes in
       seq <- get_sequence ;;
       s <- lift (Pack_uint seq) ;;
       for_segments self pack_func elements_packed segments'
         [PyBytes s] offset responses)%drv
  end.

(** The lines after the [if]: [WriteTagFragmentedResponsePacket()], then
    its [_error] is set. *)
Definition failed_response (self : t) : result Response :=
  (failed_response <- new_response [] ;;
   Ok (with_error failed_response
         (if truthy_str (error (super self)) then error (super self)
          else Some "One or more fragment responses failed")))%res.

Definition send (self : t) : M Response :=
  if negb (truthy_str (error (super self))) then
    (connection_size <- get_connection_size ;;
     path <- lift (match request_path (super self) with
                   | Some p => Ok p
                   | None => Raise TypeError
                   end) ;;
     packed <- lift (match _packed_type self with
                     | Some p => Ok p
                     | None => Raise AttributeError
                     end) ;;
     let segment_size := segment_size_of connection_size path packed in
     pack_func <- lift (pack_func_of self) ;;
     segments <- lift (segments_of (value self) segment_size) ;;
     elements_packed <- lift (Pack_uint (elements (super self))) ;;
     responses <-
       for_segments self pack_func elements_packed segments
         (_msg (super self)) 0 [] ;;
     if all_valid false responses then
       match rev responses with
       | [] => lift (Raise IndexError)
       | final_response :: _ => ret final_response
       end
     else lift (failed_response self))%drv
  else lift (failed_response self).

End WithCip.
End WriteTagFragmentedRequestPacket.

(** ** ReadModifyWriteRequestPacket *)

Module ReadModifyWriteRequestPacket.

Record t : Type := {
  tag : string;
  value : pyobj;
  elements : Z;
  tag_info : TagInfo;
  request_id : Z;
  _use_instance_id : bool;
  data_type : string;
  request_path : option bytes;
  bits : list Z;
  _request_ids : list Z;
  _and_mask : Z;
  _or_mask : Z;
  _mask_size : Z;
  _msg : list pyobj;
  error : option string
}.

Definition set_masks (self : t) (or_mask and_mask : Z) : t :=
  {| tag := tag self; value := value self; elements := elements self;
     tag_info := tag_info self; request_id := request_id self;
     _use_instance_id := _use_instance_id self;
     data_type := data_type self; request_path := request_path self;
     bits := bits self; _request_ids := _request_ids self;
     _and_mask := and_mask; _or_mask := or_mask;
     _mask_size := _mask_size self; _msg := _msg self;
     error := error self |}.

Definition record_bit (self : t) (bit rid : Z) : t :=
  {| tag := tag self; value := value self; elements := elements self;
     tag_info := tag_info self; request_id := request_id self;
     _use_instance_id := _use_instance_id self;
     data_type := data_type self; request_path := request_path self;
     bits := bits self ++ [bit]; _request_ids := _request_ids self ++ [rid];
     _and_mask := _and_mask self; _or_mask := _or_mask self;
     _mask_size := _mask_size self; _msg := _msg self;
     error := error self |}.

Definition set_msg (self : t) (m : list pyobj) : t :=
  {| tag := tag self; value := value self; elements := elements self;
     tag_info := tag_info self; request_id := request_id self;
     _use_instance_id := _use_instance_id self;
     data_type := data_type self; request_path := request_path self;
     bits := bits self; _request_ids := _request_ids self;
     _and_mask := _and_mask self; _or_mask := _or_mask self;
     _mask_size := _mask_size self; _msg := m; error := error self |}.

(** [1 << bit]; a negative shift count raises [ValueError]. *)
Definition shift_one (bit : Z) : result Z :=
  if bit <? 0 then Raise ValueError else Ok (Z.shiftl 1 bit).

(** The bit a call to [set_bit] works on. *)
Definition effective_bit (self : t) (bit : Z) : Z :=
  if String.eqb (data_type self) "DWORD" then bit mod 32 else bit.

Definition set_bit (self : t) (bit : Z) (value : bool) (request_id : Z)
    : result t :=
  let bit := if String.eqb (data_type self) "DWORD" then bit mod 32
             else bit in
  (m <- shift_one bit ;;
   let self :=
     if value then
       set_masks self (Z.lor (_or_mask self) m) (Z.lor (_and_mask self) m)
     else
       set_masks self (Z.land (_or_mask self) (Z.lnot m))
         (Z.land (_and_mask self) (Z.lnot m)) in
   Ok (record_bit self bit request_id))%res.

Section WithCip.
Context `{Cip}.

Definition tag_service : bytes := Services_read_modify_write.

Definition __init__ (tag : string) (tag_info : TagInfo)
    (request_id : Z) (use_instance_id : bool) : result t :=
  let data_type := ti_data_type_name tag_info in
  let request_path := tag_request_path tag tag_info use_instance_id in
  match DataTypeSize data_type with
  | None => Raise (RequestError "Invalid data type for writing bits")
  | Some mask_size =>
      Ok {| tag := tag; value := PyNone; elements := 0;
            tag_info := tag_info; request_id := request_id;
            _use_instance_id := use_instance_id;
            data_type := data_type; request_path := request_path;
            bits := []; _request_ids := [];
            _and_mask := 0xFFFFFFFFFFFFFFFF;
            _or_mask := 0x0000000000000000;
            _mask_size := mask_size;
            _msg := [];
            error :=
              match request_path with
              | None => Some "Failed to create request path for tag"
              | Some _ => None
              end |}
  end.

(** [build_request] up to the call of the base class, which frames
    [_msg]: the packet with the message it built. *)
Definition build_request (self : t) : result t :=
  (size <- Pack_uint (_mask_size self) ;;
   or_bytes <- Pack_ulint (_or_mask self) ;;
   and_bytes <- Pack_ulint (_and_mask self) ;;
   Ok (set_msg self
         [PyBytes tag_service;
          of_path (request_path self);
          PyBytes size;
          PyBytes (slice_to or_bytes (_mask_size self));
          PyBytes (slice_to and_bytes (_and_mask self))]))%res.

End WithCip.
End ReadModifyWriteRequestPacket.

(** ** MultiServiceRequestPacket *)

(** [b''.join(objs)]: every item must be a byte string. *)
Fixpoint join_objs (objs : list pyobj) : result bytes :=
  match objs with
  | [] => Ok []
  | PyBytes b :: rest => (r <- join_objs rest ;; Ok (b ++ r)%list)%res
  | _ :: _ => Raise TypeError
  end.

Module MultiServiceRequestPacket.
Import ReadTagFragmentedRequestPacket.

Record t : Type := {
  requests : list read_request;
  request_path : bytes;
  _msg : list pyobj;
  error : option string
}.

Definition set_msg (self : t) (m : list pyobj) : t :=
  {| requests := requests self; request_path := request_path self;
     _msg := m; error := error self |}.

Definition set_requests (self : t) (rs : list read_request) : t :=
  {| requests := rs; request_path := request_path self;
     _msg := _msg self; error := error self |}.

Section WithCip.
Context `{Cip}.

Definition __init__ (requests : list read_request) : t :=
  {| requests := requests; request_path := message_router_path;
     _msg := []; error := None |}.

Definition _setup_message (self : t) : t :=
  set_msg self
    (_msg self ++
       [PyBytes Services_multiple_service_request;
        PyBytes (request_path self)]).

(** [request.tag_service] *)
Definition tag_service_of (request : read_request) : bytes :=
  match request with
  | Plain _ => ReadTagRequestPacket.tag_service
  | Fragmented _ => ReadTagFragmentedRequestPacket.tag_service
  end.

(** [request._setup_message()], on the request itself *)
Definition setup_request (request : read_request)
    : result read_request :=
  match request with
  | Plain p =>
      (p' <- ReadTagRequestPacket._setup_message p ;; Ok (Plain p'))%res
  | Fragmented f =>
      (f' <- ReadTagFragmentedRequestPacket._setup_message f ;;
       Ok (Fragmented f'))%res
  end.

(** The body of the first loop: set the request up and join its
    service code, request path and element count. *)
Definition request_message (request : read_request)
    : result (read_request * bytes) :=
  (request <- setup_request request ;;
   n <- Pack_uint (TagServiceRequestPacket.elements (attributes request)) ;;
   m <- join_objs
          [PyBytes (tag_service_of request);
           of_path (TagServiceRequestPacket.request_path
                      (attributes request));
           PyBytes n] ;;
   Ok (request, m))%res.

(** The second loop: one packed offset per message. *)
Fixpoint pack_offsets (offset : Z) (messages : list bytes)
    : result (list bytes) :=
  match messages with
  | [] => Ok []
  | msg :: rest =>
      (o <- Pack_uint offset ;;
       os <- pack_offsets (offset + len msg) rest ;;
       Ok (o :: os))%res
  end.

Definition build_message (self : t) : result (bytes * t) :=
  let self := set_msg self (base_build_message (_msg self)) in
  let num_requests := len (requests self) in
  (count <- Pack_uint num_requests ;;
   let self := set_msg self (_msg self ++ [PyBytes count]) in
   let offset := 2 + num_requests * 2 in
   done <- mapM request_message (requests self) ;;
   let self := set_requests self (map fst done) in
   let messages := map snd done in
   offsets <- pack_offsets offset messages ;;
   out <- join_objs
            (_msg self ++ map PyBytes offsets ++ map PyBytes messages) ;;
   Ok (out, self))%res.

End WithCip.
End MultiServiceRequestPacket.

(** ** MultiServiceResponsePacket *)

Module MultiServiceResponsePacket.
Import ReadTagFragmentedRequestPacket.

Record t : Type := {
  request : MultiServiceRequestPacket.t;
  data : bytes;
  responses : list TagServiceResponsePacket.t
}.

(** [bytes(46)] *)
Definition padding : bytes := repeat x00 46.

(** [self.data[i:j] for i, j in zip_longest(start, end)], where [end]
    runs one offset ahead of [start]: the last slice has no end. *)
Fixpoint reply_slices (data : bytes) (offsets : list Z) : list bytes :=
  match offsets with
  | [] => []
  | i :: rest =>
      match rest with
      | [] => [slice_from data i]
      | j :: _ => slice data i j :: reply_slices data rest
      end
  end.

(** [request.response_class(request, padding + data)] *)
Definition response_of (slice_request : bytes * read_request)
    : TagServiceResponsePacket.t :=
  TagServiceResponsePacket.__init__ (attributes (snd slice_request))
    (padding ++ fst slice_request)%list.

(** [_parse_reply] once the base class has set [self.data]. *)
Definition _parse_reply (self : t) : result t :=
  (num_replies <- Unpack_uint (data self) ;;
   let offset_data := slice (data self) 2 (2 + 2 * num_replies) in
   starts <- range 0 (len offset_data) 2 ;;
   let chunks := map (fun i => slice offset_data i (i + 2)) starts in
   match chunks with
   | [] => Raise StopIteration
   | _ :: _ =>
       offsets <- mapM Unpack_uint chunks ;;
       let reply_data := reply_slices (data self) offsets in
       Ok {| request := request self; data := data self;
             responses :=
               responses self ++
               map response_of
                 (combine reply_data
                    (MultiServiceRequestPacket.requests (request self)))
          |}
   end)%res.

End MultiServiceResponsePacket.


(** ** ReadTagResponsePacket *)

Module ReadTagResponsePacket.

(** The attributes of a read response: those copied from the request,
    those the base class reads from the reply ([data], [service_status])
    and those of this class. *)
Record t : Type := {
  request : TagServiceRequestPacket.t;
  tag : string;
  elements : Z;
  tag_info : TagInfo;
  data : bytes;
  service_status : option Z;
  value : option pyobj;
  data_type : option string;
  _error : option string
}.

Definition set_parsed (self : t) (v : option pyobj) (dt : option string)
    : t :=
  {| request := request self; tag := tag self; elements := elements self;
     tag_info := tag_info self; data := data self;
     service_status := service_status self;
     value := v; data_type := dt; _error := _error self |}.

Definition set_failed (self : t) (e : string) : t :=
  {| request := request self; tag := tag self; elements := elements self;
     tag_info := tag_info self; data := data self;
     service_status := service_status self;
     value := None; data_type := data_type self; _error := Some e |}.

(** The attributes when [_parse_reply] runs: [value] and [data_type] are
    [None], the tag attributes are copied from the request, and [data],
    [service_status] and [_error] are as the base class read them from the
    raw reply. *)
Definition __init__ (request : TagServiceRequestPacket.t) (data : bytes)
    (service_status : option Z) (_error : option string) : t :=
  {| request := request;
     tag := TagServiceRequestPacket.tag request;
     elements := TagServiceRequestPacket.elements request;
     tag_info := TagServiceRequestPacket.tag_info request;
     data := data; service_status := service_status;
     value := None; data_type := None; _error := _error |}.

Section WithCip.
Context `{Cip}.
(* the second component of what parse_read_reply returns *)
Variable parsed_type : bytes -> TagInfo -> Z -> string.
(* str(err) *)
Variable str_of : exn -> string.

(** [self.is_valid()], on the status that was read; [fragmented] tells
    whether [self] is a [ReadTagFragmentedResponsePacket], on which the
    methods of this class run too. *)
Definition valid (fragmented : bool) (self : t) : bool :=
  is_valid fragmented (service_status self).

(** The [except] branch: the value is cleared and the error kept. *)
Definition failed (self : t) (err : exn) : t :=
  set_failed self ("Failed to parse reply - " ++ str_of err)%string.

(** [_parse_reply] once the base class has read the reply. *)
Definition _parse_reply (fragmented dont_parse : bool) (self : t) : t :=
  if valid fragmented self && negb dont_parse then
    match parse_read_reply (data self) (tag_info self) (elements self) with
    | Ok v =>
        set_parsed self (Some v)
          (Some (parsed_type (data self) (tag_info self) (elements self)))
    | Raise err => failed self err
    end
  else self.

End WithCip.
End ReadTagResponsePacket.

(** ** ReadTagFragmentedResponsePacket *)

Module ReadTagFragmentedResponsePacket.

Record t : Type := {
  super : ReadTagResponsePacket.t;
  _data_type : option bytes;
  value_bytes : option bytes
}.

(** The attributes when [_parse_reply] runs: nothing is split yet. *)
Definition __init__ (request : TagServiceRequestPacket.t) (data : bytes)
    (service_status : option Z) (_error : option string) : t :=
  {| super := ReadTagResponsePacket.__init__ request data service_status
                _error;
     _data_type := None; value_bytes := None |}.

Section WithCip.
Context `{Cip}.
Variable parsed_type : bytes -> TagInfo -> Z -> string.
Variable str_of : exn -> string.
Variable STRUCTURE_READ_REPLY : bytes.

Definition _parse_reply (self : t) : t :=
  let s := ReadTagResponsePacket._parse_reply parsed_type str_of true true
             (super self) in
  let data := ReadTagResponsePacket.data s in
  if list_eq_dec byte_eq_dec (slice_to data 2) STRUCTURE_READ_REPLY then
    {| super := s;
       _data_type := Some (slice_to data 4);
       value_bytes := Some (slice_from data 4) |}
  else
    {| super := s;
       _data_type := Some (slice_to data 2);
       value_bytes := Some (slice_from data 2) |}.

(** [self._data_type + self.value_bytes]; [None] cannot be added. *)
Definition reply_bytes (self : t) : result bytes :=
  match _data_type self, value_bytes self with
  | Some a, Some b => Ok (a ++ b)
  | _, _ => Raise TypeError
  end.

Definition parse_value (self : t) : t :=
  let s := super self in
  let request := ReadTagResponsePacket.request s in
  let s' :=
    if ReadTagResponsePacket.valid true s then
      match
        (buffer <- reply_bytes self ;;
         v <- parse_read_reply buffer
                (TagServiceRequestPacket.tag_info request)
                (TagServiceRequestPacket.elements request) ;;
         Ok (v, parsed_type buffer
                  (TagServiceRequestPacket.tag_info request)
                  (TagServiceRequestPacket.elements request)))%res
      with
      | Ok (v, dt) => ReadTagResponsePacket.set_parsed s (Some v) (Some dt)
      | Raise err => ReadTagResponsePacket.failed str_of s err
      end
    else ReadTagResponsePacket.set_parsed s None None in
  {| super := s'; _data_type := _data_type self;
     value_bytes := value_bytes self |}.

End WithCip.
End ReadTagFragmentedResponsePacket.


(** ** A concrete set of collaborators

    The CIP service codes, status codes and type codes, a packer per
    integer type and a symbolic request path, used by the examples. *)

Definition example_DataType (name : string) : option Z :=
  if String.eqb name "SINT" then Some 0xC2
  else if String.eqb name "INT" then Some 0xC3
  else if String.eqb name "DINT" then Some 0xC4
  else if String.eqb name "DWORD" then Some 0xD3
  else None.

Definition example_DataTypeSize (name : string) : option Z :=
  if String.eqb name "SINT" then Some 1
  else if String.eqb name "INT" then Some 2
  else if String.eqb name "DINT" then Some 4
  else if String.eqb name "DWORD" then Some 4
  else None.

Definition Pack_sint (z : Z) : result bytes :=
  if (- 128 <=? z) && (z <? 128) then Ok (le_bytes 1 z)
  else Raise StructError.

Definition Pack_int (z : Z) : result bytes :=
  if (- 32768 <=? z) && (z <? 32768) then Ok (le_bytes 2 z)
  else Raise StructError.

Definition example_Pack (name : string) : option (Z -> result bytes) :=
  if String.eqb name "SINT" then Some Pack_sint
  else if String.eqb name "INT" then Some Pack_int
  else if String.eqb name "DINT" then Some Pack_dint
  else if String.eqb name "DWORD" then Some Pack_udint
  else None.

(** An ANSI extended symbol segment: [0x91], the length of the name, the
    name, padded to an even length; no path for an empty name. *)
Definition example_tag_request_path (tag : string) (_ : TagInfo) (_ : bool)
    : option bytes :=
  let name := list_byte_of_string tag in
  match name with
  | [] => None
  | _ :: _ =>
      Some ([x91; byte_of_Z (len name)] ++ name ++
            (if Nat.even (length name) then [] else [x00]))%list
  end.

Definition example_cip : Cip :=
  {| Services_read_tag := [x4c];
     Services_read_tag_fragmented := [x52];
     Services_write_tag := [x4d];
     Services_write_tag_fragmented := [x53];
     Services_read_modify_write := [x4e];
     Services_multiple_service_request := [x0a];
     SUCCESS := 0;
     INSUFFICIENT_PACKETS := 6;
     DataType := example_DataType;
     DataTypeSize := example_DataTypeSize;
     Pack := example_Pack;
     tag_request_path := example_tag_request_path;
     message_router_path := [x02; x20; x02; x24; x01];
     parse_read_reply := fun b _ _ => Ok (PyBytes b);
     base_build_message := fun m => m |}.

Definition dint_info : TagInfo :=
  {| ti_tag_type := "atomic"; ti_data_type_name := "DINT";
     ti_data_type := TypeName "DINT" |}.

Definition dword_info : TagInfo :=
  {| ti_tag_type := "atomic"; ti_data_type_name := "DWORD";
     ti_data_type := TypeName "DWORD" |}.

Definition udt_info : TagInfo :=
  {| ti_tag_type := "struct"; ti_data_type_name := "Recipe";
     ti_data_type := Template 0x1234 |}.

Definition lreal_info : TagInfo :=
  {| ti_tag_type := "atomic"; ti_data_type_name := "LREAL";
     ti_data_type := TypeName "LREAL" |}.

(** The read-modify-write packet of a DWORD tag and of a DINT tag, as
    [__init__] builds them. *)
Definition rmw_packet (info : TagInfo) : ReadModifyWriteRequestPacket.t :=
  {| ReadModifyWriteRequestPacket.tag := "flags";
     ReadModifyWriteRequestPacket.value := PyNone;
     ReadModifyWriteRequestPacket.elements := 0;
     ReadModifyWriteRequestPacket.tag_info := info;
     ReadModifyWriteRequestPacket.request_id := 7;
     ReadModifyWriteRequestPacket._use_instance_id := true;
     ReadModifyWriteRequestPacket.data_type := ti_data_type_name info;
     ReadModifyWriteRequestPacket.request_path :=
       example_tag_request_path "flags" info true;
     ReadModifyWriteRequestPacket.bits := [];
     ReadModifyWriteRequestPacket._request_ids := [];
     ReadModifyWriteRequestPacket._and_mask := 0xFFFFFFFFFFFFFFFF;
     ReadModifyWriteRequestPacket._or_mask := 0;
     ReadModifyWriteRequestPacket._mask_size := 4;
     ReadModifyWriteRequestPacket._msg := [];
     ReadModifyWriteRequestPacket.error := None |}.

Definition dword_packet := rmw_packet dword_info.
Definition dint_packet := rmw_packet dint_info.

(** The offset table in the words of the spec: the first offset is given,
    "each subsequent offset accumulates the previous segment's length". *)
Fixpoint offsets_from (offset : Z) (lengths : list Z) : list Z :=
  match lengths with
  | [] => []
  | l :: rest => offset :: offsets_from (offset + l) rest
  end.

(** A plain read whose request path is already compiled. *)
Definition read_with_path (path : bytes) (elements : Z)
    : ReadTagFragmentedRequestPacket.read_request :=
  ReadTagFragmentedRequestPacket.Plain
    {| TagServiceRequestPacket.tag := "t";
       TagServiceRequestPacket.elements := elements;
       TagServiceRequestPacket.tag_info := dint_info;
       TagServiceRequestPacket.request_id := 1;
       TagServiceRequestPacket._use_instance_id := true;
       TagServiceRequestPacket.request_path := Some path;
       TagServiceRequestPacket._msg := [];
       TagServiceRequestPacket.error := None |}.

(** A batch of three reads whose bodies are 10, 6 and 14 bytes long. *)
Definition example_batch : MultiServiceRequestPacket.t :=
  @MultiServiceRequestPacket.__init__ example_cip
    [read_with_path (repeat x01 7) 1;
     read_with_path (repeat x02 3) 2;
     read_with_path (repeat x03 11) 3].

(** The offset table of a reply: one two-byte entry per offset. *)
Definition table (offs : list Z) : bytes := concat (map (le_bytes 2) offs).

(** The reply to [example_batch]: count 3, offsets 8, 18 and 24, then 30
    bytes of replies; 38 bytes in all. *)
Definition example_reply : MultiServiceResponsePacket.t :=
  {| MultiServiceResponsePacket.request := example_batch;
     MultiServiceResponsePacket.data :=
       le_bytes 2 3 ++ table [8; 18; 24] ++ repeat x07 30;
     MultiServiceResponsePacket.responses := [] |}.

(** A reply whose count field is 0, to a batch of no operation. *)
Definition empty_reply : MultiServiceResponsePacket.t :=
  {| MultiServiceResponsePacket.request :=
       @MultiServiceRequestPacket.__init__ example_cip [];
     MultiServiceResponsePacket.data := [x00; x00];
     MultiServiceResponsePacket.responses := [] |}.

(** A base class for the examples: a response built for a request has
    status 0 and the raw reply as payload, and [parse_bytes] leaves it as
    it is. *)
Definition example_base : Base :=
  {| base_init := fun _ raw_data =>
       {| service_status := Some 0;
          bytes_ := match raw_data with
                    | Some (ArgBytes b) => b
                    | _ => []
                    end;
          _error := None; value := None |};
     parse_bytes := fun r => Ok r |}.

(** The driver after [msgs] were sent and the first [n] pending replies
    were received. *)
Definition advance (d : Driver) (msgs : list (list pyobj)) (n : nat)
    : Driver :=
  {| connection_size := connection_size d; _sequence := _sequence d;
     sent := sent d ++ msgs; pending := skipn n (pending d) |}.

(** A driver with the given connection size and pending raw replies. *)
Definition driver (size : Z) (replies : list bytes) : Driver :=
  {| connection_size := size; _sequence := 1; sent := [];
     pending := replies |}.

(** A fragmented write as its constructor builds it. *)
Definition fragmented_write (tag : string) (elements : Z)
    (tag_info : TagInfo) (value : pyobj)
    : result WriteTagFragmentedRequestPacket.t :=
  @WriteTagFragmentedRequestPacket.__init__ example_cip tag elements
    tag_info 3 true value None.

(** A struct write of no byte at all. *)
Definition empty_write := fragmented_write "recipe" 1 udt_info (PyBytes []).

(** Four DINT elements for an atomic tag. *)
Definition dint_write := fragmented_write "level" 4 dint_info
  (PyList [1; 2; 3; 4]).

(** A fragmented read of ten elements whose request path is compiled. *)
Definition fragmented_read : ReadTagFragmentedRequestPacket.t :=
  ReadTagFragmentedRequestPacket.from_request
    (read_with_path [x91; x04; x64; x61; x74; x61] 10) 0.

(** The raw replies of four rounds. *)
Definition four_rounds : list bytes :=
  [[x01; x02; x03]; [x04; x05]; [x06]; [x07; x08]].

(** A run of [set_bit] calls, each given as (bit, value, request_id), made
    one after the other on the same packet. *)
Fixpoint set_bits (self : ReadModifyWriteRequestPacket.t)
    (calls : list (Z * bool * Z)) : result ReadModifyWriteRequestPacket.t :=
  match calls with
  | [] => Ok self
  | (bit, v, rid) :: rest =>
      (self' <- ReadModifyWriteRequestPacket.set_bit self bit v rid ;;
       set_bits self' rest)%res
  end.

(** The value given by the last call of a run that works on bit [e], if
    any call does. *)
Fixpoint last_write (self : ReadModifyWriteRequestPacket.t)
    (calls : list (Z * bool * Z)) (e : Z) : option bool :=
  match calls with
  | [] => None
  | (bit, v, _) :: rest =>
      match last_write self rest e with
      | Some w => Some w
      | None =>
          if ReadModifyWriteRequestPacket.effective_bit self bit =? e
          then Some v else None
      end
  end.

(** A mask that [Pack.ulint] accepts. *)
Definition mask_in_range (m : Z) : Prop := 0 <= m < 18446744073709551616.

(** The segments of a value cut every [size] items: [ceil(len / size)]
    runs of [size] consecutive items, the last one holding what is left. *)
Definition chunks_of {A} (l : list A) (size : Z) : list (list A) :=
  map (fun k => firstn (Z.to_nat size) (skipn (k * Z.to_nat size) l))
    (seq 0 (Z.to_nat ((len l - 0 + size - 1) / size))).

(** A write of two DINT elements given as packed bytes, built with an
    explicit request path. *)
Definition explicit_path_write : result WriteTagRequestPacket.t :=
  @WriteTagRequestPacket.__init__ example_cip "level" 2 dint_info 3 true
    (PyBytes [x01; x00; x00; x00; x02; x00; x00; x00])
    (Some [x20; x6b; x25; x00; x2a; x00]).

(** A fragmented read of a tag the example path compiler gives no path
    for. *)
Definition unnamed_read : ReadTagFragmentedRequestPacket.t :=
  ReadTagFragmentedRequestPacket.__init__ "" 1 dint_info 3 true 0.

(** A fragmented read built with a negative offset. *)
Definition negative_offset_read : ReadTagFragmentedRequestPacket.t :=
  ReadTagFragmentedRequestPacket.from_request
    (read_with_path [x91; x04; x64; x61; x74; x61] 10) (-1).

(** A batch whose first body is longer than an offset can tell. *)
Definition large_batch : MultiServiceRequestPacket.t :=
  @MultiServiceRequestPacket.__init__ example_cip
    [read_with_path (repeat x01 (Z.to_nat 70000)) 1;
     read_with_path [x02; x03] 1].

(** A reply of two slices to the batch of three reads. *)
Definition short_reply : MultiServiceResponsePacket.t :=
  {| MultiServiceResponsePacket.request := example_batch;
     MultiServiceResponsePacket.data :=
       le_bytes 2 2 ++ table [6; 9] ++ [x0a; x0b; x0c; x0d; x0e];
     MultiServiceResponsePacket.responses := [] |}.

(** * Properties *)

(** ** from_request of a fragmented read *)

(** C10: for every read request [r], plain or fragmented, and every offset
    [k], [from_request r k] has the tag, element count, tag_info,
    request_id and instance-addressing flag of [r], carries [r]'s compiled
    request path as it is (also when it is [None]: the path compiler is
    not called) and has offset [k]. *)
Theorem from_request_copies_request :
  forall (r : ReadTagFragmentedRequestPacket.read_request) (k : Z),
    let a := ReadTagFragmentedRequestPacket.attributes r in
    let n := ReadTagFragmentedRequestPacket.from_request r k in
    let s := ReadTagFragmentedRequestPacket.super n in
    TagServiceRequestPacket.tag s = TagServiceRequestPacket.tag a /\
    TagServiceRequestPacket.elements s = TagServiceRequestPacket.elements a /\
    TagServiceRequestPacket.tag_info s = TagServiceRequestPacket.tag_info a /\
    TagServiceRequestPacket.request_id s
      = TagServiceRequestPacket.request_id a /\
    TagServiceRequestPacket._use_instance_id s
      = TagServiceRequestPacket._use_instance_id a /\
    TagServiceRequestPacket.request_path s
      = TagServiceRequestPacket.request_path a /\
    ReadTagFragmentedRequestPacket.offset n = k.
Proof.
  intros r k; destruct r as [p | f]; cbn; repeat split; reflexivity.
Qed.

(** ** The read-modify-write masks *)

Section SetBit.
Import ReadModifyWriteRequestPacket.

Lemma testbit_shift_one (e : Z) : 0 <= e -> Z.testbit (Z.shiftl 1 e) e = true.
Proof.
  intros He. rewrite Z.shiftl_spec by assumption.
  replace (e - e) with 0 by lia. reflexivity.
Qed.

Lemma testbit_set (x e : Z) :
  0 <= e -> Z.testbit (Z.lor x (Z.shiftl 1 e)) e = true.
Proof.
  intros He. rewrite Z.lor_spec, testbit_shift_one by assumption.
  apply orb_true_r.
Qed.

Lemma testbit_clear (x e : Z) :
  0 <= e -> Z.testbit (Z.land x (Z.lnot (Z.shiftl 1 e))) e = false.
Proof.
  intros He.
  rewrite Z.land_spec, Z.lnot_spec, testbit_shift_one by assumption.
  apply andb_false_r.
Qed.

Lemma effective_bit_nonneg (self : t) (bit : Z) :
  data_type self = "DWORD" \/ 0 <= bit -> 0 <= effective_bit self bit.
Proof.
  unfold effective_bit. intros [Hd | Hb].
  - rewrite Hd. cbn. apply Z.mod_pos_bound. lia.
  - destruct (String.eqb (data_type self) "DWORD"); [|assumption].
    apply Z.mod_pos_bound. lia.
Qed.

(** [set_bit] as a function of the bit it works on. *)
Lemma set_bit_unfold (self : t) (bit : Z) (v : bool) (rid : Z) :
  0 <= effective_bit self bit ->
  set_bit self bit v rid =
  Ok (record_bit
        (if v then
           set_masks self
             (Z.lor (_or_mask self) (Z.shiftl 1 (effective_bit self bit)))
             (Z.lor (_and_mask self) (Z.shiftl 1 (effective_bit self bit)))
         else
           set_masks self
             (Z.land (_or_mask self)
                (Z.lnot (Z.shiftl 1 (effective_bit self bit))))
             (Z.land (_and_mask self)
                (Z.lnot (Z.shiftl 1 (effective_bit self bit)))))
        (effective_bit self bit) rid).
Proof.
  intros He. unfold set_bit, effective_bit in *.
  set (e := if String.eqb (data_type self) "DWORD" then bit mod 32 else bit)
    in *.
  unfold shift_one. destruct (Z.ltb_spec e 0) as [Hlt | Hge]; [lia|].
  cbn. destruct v; reflexivity.
Qed.

(** The last call for a bit decides that bit in both masks. *)
Lemma set_bit_last_wins (self self' : t) (bit : Z) (v : bool) (rid : Z) :
  set_bit self bit v rid = Ok self' ->
  Z.testbit (_or_mask self') (effective_bit self bit) = v /\
  Z.testbit (_and_mask self') (effective_bit self bit) = v /\
  data_type self' = data_type self.
Proof.
  intros Hs.
  assert (He : 0 <= effective_bit self bit).
  { unfold set_bit, shift_one in Hs. unfold effective_bit.
    destruct (Z.ltb_spec
                (if String.eqb (data_type self) "DWORD" then bit mod 32
                 else bit) 0); [discriminate | assumption]. }
  rewrite set_bit_unfold in Hs by assumption.
  injection Hs as <-. destruct v; cbn.
  - rewrite !testbit_set by assumption. auto.
  - rewrite !testbit_clear by assumption. auto.
Qed.

Lemma effective_bit_same_type (a b : t) (bit : Z) :
  data_type a = data_type b -> effective_bit a bit = effective_bit b bit.
Proof. unfold effective_bit. intros ->. reflexivity. Qed.

Lemma effective_bit_idempotent (self : t) (bit : Z) :
  data_type self = "DWORD" ->
  effective_bit self (bit mod 32) = effective_bit self bit.
Proof.
  unfold effective_bit. intros ->. cbn. apply Z.mod_mod. lia.
Qed.

(** For a DWORD the call only depends on the bit index modulo 32. *)
Lemma set_bit_dword_mod (self : t) (bit : Z) (v : bool) (rid : Z) :
  data_type self = "DWORD" ->
  set_bit self bit v rid = set_bit self (bit mod 32) v rid.
Proof.
  intros Hd.
  rewrite !set_bit_unfold by (apply effective_bit_nonneg; auto).
  rewrite effective_bit_idempotent by assumption. reflexivity.
Qed.

(** C7, as the code has it: for every accumulator and every bit index [b]
    (non-negative, or any index when the type is DWORD), [set_bit(b, True)]
    followed by [set_bit(b, False)] both succeed and leave the bit they work
    on clear in the OR-mask and in the AND-mask; that bit is [b mod 32] when
    the data type is DWORD and [b] itself for every other type. For a DWORD
    a call depends on the index only modulo 32, so [set_bit(35, v)] gives
    the same packet as [set_bit(3, v)]. *)
Theorem set_bit_override_and_dword_wrap :
  forall (acc : t) (b rid1 rid2 : Z),
    data_type acc = "DWORD" \/ 0 <= b ->
    exists acc1 acc2,
      set_bit acc b true rid1 = Ok acc1 /\
      set_bit acc1 b false rid2 = Ok acc2 /\
      Z.testbit (_or_mask acc2) (effective_bit acc b) = false /\
      Z.testbit (_and_mask acc2) (effective_bit acc b) = false /\
      (data_type acc = "DWORD" ->
       forall (v : bool) (rid : Z),
         set_bit acc b v rid = set_bit acc (b mod 32) v rid /\
         set_bit acc 35 v rid = set_bit acc 3 v rid).
Proof.
  intros acc b rid1 rid2 Hb.
  pose proof (effective_bit_nonneg acc b Hb) as He.
  pose proof (set_bit_unfold acc b true rid1 He) as H1.
  destruct (set_bit_last_wins _ _ _ _ _ H1) as (_ & _ & Ht1).
  match type of H1 with _ = Ok ?x => set (acc1 := x) in * end.
  assert (He1 : 0 <= effective_bit acc1 b).
  { rewrite (effective_bit_same_type acc1 acc) by assumption. exact He. }
  pose proof (set_bit_unfold acc1 b false rid2 He1) as H2.
  match type of H2 with _ = Ok ?x => set (acc2 := x) in * end.
  destruct (set_bit_last_wins _ _ _ _ _ H2) as (Ho & Ha & _).
  rewrite (effective_bit_same_type acc1 acc) in Ho, Ha by assumption.
  exists acc1, acc2. repeat split; try assumption.
  - apply set_bit_dword_mod. assumption.
  - rewrite (set_bit_dword_mod acc 35) by assumption. reflexivity.
Qed.

End SetBit.

Section ReadModifyWrite.
Import ReadModifyWriteRequestPacket.

Example rmw_packet_init :
  @__init__ example_cip "flags" dword_info 7 true = Ok dword_packet /\
  @__init__ example_cip "flags" dint_info 7 true = Ok dint_packet.
Proof. split; reflexivity. Qed.

Lemma set_bit_override_and_dword_wrap_witness :
  exists acc1 acc2,
    set_bit dword_packet 35 true 1 = Ok acc1 /\
    set_bit acc1 35 false 2 = Ok acc2 /\
    Z.testbit (_or_mask acc2) 3 = false /\
    Z.testbit (_and_mask acc2) 3 = false /\
    set_bit dword_packet 35 true 1 = set_bit dword_packet 3 true 1.
Proof.
  destruct (set_bit_override_and_dword_wrap dword_packet 35 1 2
              (or_introl eq_refl))
    as (acc1 & acc2 & H1 & H2 & Ho & Ha & Hw).
  exists acc1, acc2.
  split; [exact H1|]. split; [exact H2|].
  split; [exact Ho|]. split; [exact Ha|].
  exact (proj2 (Hw eq_refl true 1)).
Defined.

(** A DINT is 32 bits wide, and its bit index is not reduced: bit 35 and
    bit 3 give different masks. *)
Lemma set_bit_dint_not_reduced :
  _mask_size dint_packet = 4 /\
  exists a b,
    set_bit dint_packet 35 true 1 = Ok a /\
    set_bit dint_packet 3 true 1 = Ok b /\
    _or_mask a = 2 ^ 35 /\ _or_mask b = 2 ^ 3 /\
    _or_mask a <> _or_mask b.
Proof.
  split; [reflexivity|].
  eexists; eexists.
  split; [reflexivity|]. split; [reflexivity|].
  split; [reflexivity|]. split; [reflexivity|].
  cbn. discriminate.
Qed.

(** C3, at a DWORD tag (mask width 4) after [set_bit(0, True)] and
    [set_bit(1, False)]: the built message is the service code, the request
    path, the width 4 on two bytes and the low four bytes [01 00 00 00] of
    the OR-mask, but the AND-mask is cut at its own value and not at the
    width, so all eight bytes [FD FF FF FF FF FF FF FF] are sent where the
    four bytes of 0xFFFF_FFFD are expected. *)
Theorem build_request_and_mask_not_truncated :
  exists p1 p2 p3,
    set_bit dword_packet 0 true 1 = Ok p1 /\
    set_bit p1 1 false 2 = Ok p2 /\
    @build_request example_cip p2 = Ok p3 /\
    _mask_size p2 = 4 /\
    _or_mask p2 = 0x00000001 /\
    _and_mask p2 = 0xFFFFFFFFFFFFFFFD /\
    _msg p3 =
      [PyBytes [x4e];
       of_path (request_path dword_packet);
       PyBytes [x04; x00];
       PyBytes [x01; x00; x00; x00];
       PyBytes [xfd; xff; xff; xff; xff; xff; xff; xff]].
Proof.
  do 3 eexists.
  split; [reflexivity|]. split; [reflexivity|].
  split; [vm_compute; reflexivity|].
  repeat split; reflexivity.
Qed.

End ReadModifyWrite.

(** ** Build errors of a write *)

Section WriteInit.
Import WriteTagRequestPacket.

(** A write whose request path cannot be built is returned with the error
    attached; its type and value are not looked at. *)
Lemma write_init_no_path `{Cip} (service : bytes) (tag : string)
    (elements : Z) (tag_info : TagInfo) (request_id : Z)
    (use_instance_id : bool) (value : pyobj) (request_path : option bytes) :
  resolved_path tag tag_info use_instance_id request_path = None ->
  exists p,
    __init___with service tag elements tag_info request_id use_instance_id
      value request_path = Ok p /\
    TagServiceRequestPacket.error (super p)
      = Some "Failed to create request path for tag" /\
    TagServiceRequestPacket._msg (super p) = [].
Proof.
  unfold __init___with. cbn. intros ->.
  eexists. split; [reflexivity|]. split; reflexivity.
Qed.

(** C9, as the code has it: for every write whose request path is
    available, a struct-typed value that is not raw bytes, and an atomic
    type name outside [DataType], each make the constructor raise
    [RequestError]; no packet is returned, so no error is attached to one.
    The constructor sends nothing: it does not take the driver. *)
Theorem write_init_build_errors_are_raised `{Cip} :
  forall (service : bytes) (tag : string) (elements : Z)
         (tag_info : TagInfo) (request_id : Z) (use_instance_id : bool)
         (value : pyobj) (request_path : option bytes) (path : bytes),
    resolved_path tag tag_info use_instance_id request_path = Some path ->
    (ti_tag_type tag_info = "struct" ->
     (forall b, value <> PyBytes b) ->
     __init___with service tag elements tag_info request_id use_instance_id
       value request_path
     = Raise (RequestError "Writing UDTs only supports bytes for value")) /\
    (ti_tag_type tag_info <> "struct" ->
     DataType (ti_data_type_name tag_info) = None ->
     __init___with service tag elements tag_info request_id use_instance_id
       value request_path
     = Raise (RequestError
                ("Unsupported data type: "
                 ++ repr_name (ti_data_type_name tag_info))%string)).
Proof.
  intros service tag elements tag_info request_id use_instance_id value
    request_path path Hpath.
  unfold __init___with. cbn.
  rewrite Hpath. split.
  - intros Hs Hv. rewrite Hs. cbn.
    destruct value as [b | l |]; [exfalso; apply (Hv b); reflexivity | |];
      reflexivity.
  - intros Hs Hd.
    destruct (String.eqb_spec (ti_tag_type tag_info) "struct") as [E | _];
      [contradiction|].
    rewrite Hd. reflexivity.
Qed.

Lemma write_init_build_errors_are_raised_witness :
  @__init__ example_cip "recipe" 1 udt_info 3 true (PyList [1; 2]) None
  = Raise (RequestError "Writing UDTs only supports bytes for value") /\
  @__init__ example_cip "level" 1 lreal_info 3 true (PyList [1]) None
  = Raise (RequestError "Unsupported data type: 'LREAL'").
Proof.
  split.
  - apply (proj1 (@write_init_build_errors_are_raised example_cip
                    [x4d] "recipe" 1 udt_info 3 true (PyList [1; 2]) None
                    _ eq_refl)).
    + reflexivity.
    + intros b Hb. discriminate Hb.
  - apply (proj2 (@write_init_build_errors_are_raised example_cip
                    [x4d] "level" 1 lreal_info 3 true (PyList [1]) None
                    _ eq_refl)).
    + intros Hs. discriminate Hs.
    + reflexivity.
Defined.

(** A struct write with a sequence for value: the constructor raises, where
    the spec has it return the operation with an error attached. *)
Lemma write_init_struct_value_not_attached :
  @__init__ example_cip "recipe" 1 udt_info 3 true (PyList [1; 2]) None
  = Raise (RequestError "Writing UDTs only supports bytes for value") /\
  ~ (exists p,
       @__init__ example_cip "recipe" 1 udt_info 3 true (PyList [1; 2]) None
       = Ok p /\
       TagServiceRequestPacket.error (super p) <> None).
Proof.
  split; [reflexivity|].
  intros (p & Hp & _). discriminate Hp.
Qed.

End WriteInit.

(** ** Packing *)

Lemma le_bytes_length (n : nat) (z : Z) : length (le_bytes n z) = n.
Proof.
  revert z; induction n as [| n IH]; intros z; cbn; [reflexivity|].
  now rewrite IH.
Qed.

Lemma Pack_uint_ok (z : Z) :
  0 <= z < 65536 -> Pack_uint z = Ok (le_bytes 2 z).
Proof.
  intros [H0 H1]. unfold Pack_uint.
  destruct (Z.leb_spec 0 z); [|lia].
  destruct (Z.ltb_spec z 65536); [|lia]. reflexivity.
Qed.

Lemma Pack_dint_ok (z : Z) :
  - 2147483648 <= z < 2147483648 -> Pack_dint z = Ok (le_bytes 4 z).
Proof.
  intros [H0 H1]. unfold Pack_dint.
  destruct (Z.leb_spec (- 2147483648) z); [|lia].
  destruct (Z.ltb_spec z 2147483648); [|lia]. reflexivity.
Qed.

Lemma len_nonneg {A} (l : list A) : 0 <= len l.
Proof. unfold len. lia. Qed.

Lemma len_app {A} (l1 l2 : list A) : len (l1 ++ l2) = len l1 + len l2.
Proof. unfold len. rewrite length_app. lia. Qed.

Lemma mapM_length {A B} (f : A -> result B) (l : list A) (r : list B) :
  mapM f l = Ok r -> length r = length l.
Proof.
  revert r; induction l as [| x xs IH]; intros r; cbn.
  - intros [= <-]. reflexivity.
  - destruct (f x) as [y |]; cbn; [|discriminate].
    destruct (mapM f xs) as [ys |]; cbn; [|discriminate].
    intros [= <-]. cbn. now rewrite (IH ys).
Qed.

(** ** The offset table of a batch *)

Section BuildMessage.
Import MultiServiceRequestPacket.
Context `{Cip}.

Lemma join_objs_app (l1 l2 : list pyobj) (b1 b2 : bytes) :
  join_objs l1 = Ok b1 -> join_objs l2 = Ok b2 ->
  join_objs (l1 ++ l2) = Ok (b1 ++ b2)%list.
Proof.
  revert b1; induction l1 as [| x xs IH]; intros b1; cbn.
  - intros [= <-] ->. reflexivity.
  - destruct x as [b | |]; try discriminate.
    destruct (join_objs xs) as [r |]; cbn; [|discriminate].
    intros [= <-] H2. rewrite (IH r eq_refl H2). cbn.
    now rewrite app_assoc.
Qed.

Lemma join_objs_bytes (l : list bytes) :
  join_objs (map PyBytes l) = Ok (concat l).
Proof.
  induction l as [| x xs IH]; cbn; [reflexivity|]. now rewrite IH.
Qed.

Lemma offsets_from_length (o : Z) (ls : list Z) :
  length (offsets_from o ls) = length ls.
Proof.
  revert o; induction ls as [| l ls IH]; intros o; cbn; [reflexivity|].
  now rewrite IH.
Qed.

Lemma offsets_from_step (o : Z) (ls : list Z) (i : nat) :
  (S i < length ls)%nat ->
  nth (S i) (offsets_from o ls) 0
  = nth i (offsets_from o ls) 0 + nth i ls 0.
Proof.
  revert o i; induction ls as [| l ls IH]; intros o i Hi; cbn in Hi; [lia|].
  destruct i as [| i].
  - destruct ls as [| l' ls]; cbn in *; [lia | reflexivity].
  - cbn. apply IH. lia.
Qed.


(** The second loop packs exactly the offsets of the spec, when they fit
    in two bytes. *)
Lemma pack_offsets_ok (o : Z) (messages : list bytes) :
  0 <= o ->
  Forall (fun x => x < 65536) (offsets_from o (map len messages)) ->
  pack_offsets o messages
  = Ok (map (le_bytes 2) (offsets_from o (map len messages))).
Proof.
  revert o; induction messages as [| m ms IH]; intros o Ho Hf; cbn.
  - reflexivity.
  - cbn in Hf. inversion Hf as [| ? ? Hlt Hrest]; subst.
    rewrite Pack_uint_ok by lia. cbn.
    rewrite IH; [reflexivity | pose proof (len_nonneg m); lia | assumption].
Qed.

Lemma table_length (offs : list Z) :
  len (concat (map (le_bytes 2) offs)) = 2 * len offs.
Proof.
  unfold len. induction offs as [| o os IH]; cbn [map concat]; [reflexivity|].
  rewrite length_app, le_bytes_length. cbn [length]. lia.
Qed.

(** C4: for every batch whose [n] body segments materialise as [messages]
    and whose offsets fit in two bytes, [build_message] returns the header
    left by the base class, then the count [n] on two bytes, then one
    two-byte offset per operation, then the segments joined. Count and
    table take [2 + 2*n] bytes; the first offset is [2 + 2*n] and each
    next one adds the length of the previous segment. *)
Theorem build_message_offset_table :
  forall (self : t) (done : list (_ * bytes)) (header : bytes),
    mapM request_message (requests self) = Ok done ->
    join_objs (base_build_message (_msg self)) = Ok header ->
    let n := len (requests self) in
    let messages := map snd done in
    let offs := offsets_from (2 + 2 * n) (map len messages) in
    Forall (fun o => o < 65536) offs ->
    exists self',
      build_message self
      = Ok ((header ++ le_bytes 2 n ++ concat (map (le_bytes 2) offs)
             ++ concat messages)%list, self') /\
      len (le_bytes 2 n ++ concat (map (le_bytes 2) offs)) = 2 + 2 * n /\
      length offs = length (requests self) /\
      (0 < n -> nth 0 offs 0 = 2 + 2 * n) /\
      (forall i, (S i < length offs)%nat ->
         nth (S i) offs 0 = nth i offs 0 + len (nth i messages [])).
Proof.
  intros self done header Hdone Hhead n messages offs Hfit.
  pose proof (mapM_length _ _ _ Hdone) as Hlen.
  assert (Hlm : length messages = length (requests self)).
  { unfold messages. now rewrite length_map. }
  assert (Hlo : length offs = length (requests self)).
  { unfold offs. now rewrite offsets_from_length, length_map. }
  assert (Hfirst : 0 < n -> nth 0 offs 0 = 2 + 2 * n).
  { intros Hpos. subst offs. destruct messages as [| m ms].
    - cbn [length] in Hlm. unfold n, len in Hpos. rewrite <- Hlm in Hpos.
      cbn in Hpos. lia.
    - reflexivity. }
  assert (Hn : 0 <= n < 65536).
  { split; [apply len_nonneg|].
    destruct (Z.eq_dec n 0) as [-> | Hnz]; [lia|].
    assert (Hpos : 0 < n) by (pose proof (len_nonneg (requests self)); lia).
    specialize (Hfirst Hpos).
    assert (Hin : In (nth 0 offs 0) offs).
    { apply nth_In. rewrite Hlo. unfold n, len in Hpos. lia. }
    rewrite Forall_forall in Hfit. specialize (Hfit _ Hin).
    cbn beta in Hfit. lia. }
  eexists. split; [|split; [|split; [|split]]].
  - unfold build_message.
    cbv beta zeta. cbn [_msg set_msg requests set_requests].
    fold n. rewrite (Pack_uint_ok n Hn). cbn [rbind].
    rewrite Hdone. cbn [rbind]. fold messages.
    replace (2 + n * 2) with (2 + 2 * n) by lia.
    rewrite pack_offsets_ok; [| lia | exact Hfit]. cbn [rbind]. fold offs.
    rewrite <- app_assoc.
    rewrite (join_objs_app (base_build_message (_msg self)) _ header
               (le_bytes 2 n ++ concat (map (le_bytes 2) offs)
                ++ concat messages)%list).
    + reflexivity.
    + assumption.
    + change [PyBytes (le_bytes 2 n)] with (map PyBytes [le_bytes 2 n]).
      rewrite <- !map_app, join_objs_bytes. rewrite !concat_app.
      cbn [concat]. now rewrite app_nil_r.
  - rewrite len_app, table_length. unfold len.
    rewrite le_bytes_length, Hlo. unfold n, len. lia.
  - exact Hlo.
  - exact Hfirst.
  - intros i Hi. subst offs.
    rewrite offsets_from_step.
    + f_equal. change 0 with (len (@nil byte)). apply map_nth.
    + rewrite length_map. rewrite offsets_from_length, length_map in Hi.
      exact Hi.
Qed.

End BuildMessage.

Section BuildMessageExamples.
Import MultiServiceRequestPacket.

(** The body segment of a read whose path is compiled and whose element
    count fits in two bytes: service code, request path, element count. *)
Lemma request_message_plain `{Cip} (p : ReadTagRequestPacket.t)
    (path : bytes) :
  TagServiceRequestPacket.request_path p = Some path ->
  0 <= TagServiceRequestPacket.elements p < 65536 ->
  exists p',
    request_message (ReadTagFragmentedRequestPacket.Plain p)
    = Ok (ReadTagFragmentedRequestPacket.Plain p',
          (Services_read_tag ++ path
           ++ le_bytes 2 (TagServiceRequestPacket.elements p))%list).
Proof.
  intros Hp He. unfold request_message, setup_request.
  unfold ReadTagRequestPacket._setup_message,
    ReadTagRequestPacket._setup_message_with.
  rewrite Hp. rewrite (Pack_uint_ok _ He). cbn [rbind].
  cbn [ReadTagFragmentedRequestPacket.attributes
       TagServiceRequestPacket.set_msg TagServiceRequestPacket.elements
       TagServiceRequestPacket.request_path].
  rewrite (Pack_uint_ok _ He). cbn [rbind]. rewrite Hp.
  eexists. cbn [of_path join_objs rbind]. rewrite app_nil_r. reflexivity.
Qed.

Lemma build_message_offset_table_witness :
  exists out self',
    @build_message example_cip example_batch = Ok (out, self') /\
    map len (map (fun r => match @request_message example_cip r with
                           | Ok (_, m) => m
                           | Raise _ => []
                           end) (requests example_batch)) = [10; 6; 14] /\
    firstn 8 out = [x03; x00; x08; x00; x12; x00; x18; x00] /\
    len out = 38.
Proof.
  destruct (@build_message_offset_table example_cip example_batch
              _ [] eq_refl eq_refl) as (self' & Hb & _).
  - vm_compute. repeat constructor.
  - eexists; exists self'. split; [exact Hb|].
    split; [reflexivity|]. split; reflexivity.
Defined.

End BuildMessageExamples.

(** ** Bytes and slices *)

Lemma Z_of_byte_of_Z (z : Z) : Z_of_byte (byte_of_Z z) = z mod 256.
Proof.
  unfold Z_of_byte, byte_of_Z.
  pose proof (Z.mod_pos_bound z 256 ltac:(lia)) as Hb.
  destruct (Byte.of_N (Z.to_N (z mod 256))) as [b |] eqn:E.
  - apply Byte.to_of_N in E. rewrite E. apply Z2N.id. apply Hb.
  - apply Byte.of_N_None_iff in E.
    apply N2Z.inj_lt in E. rewrite Z2N.id in E by apply Hb.
    change (Z.of_N 255) with 255 in E. lia.
Qed.

Lemma le_value_le_bytes_2 (z : Z) :
  0 <= z < 65536 -> le_value (le_bytes 2 z) = z.
Proof.
  intros Hz. cbn [le_bytes le_value]. rewrite !Z_of_byte_of_Z.
  rewrite !Z.mod_mod by lia.
  rewrite (Z.mod_small (z / 256)) by
    (split; [apply Z.div_pos; lia | apply Z.div_lt_upper_bound; lia]).
  pose proof (Z.div_mod z 256 ltac:(lia)). lia.
Qed.

Lemma Unpack_uint_Pack (z : Z) (rest : bytes) :
  0 <= z < 65536 -> Unpack_uint (le_bytes 2 z ++ rest) = Ok z.
Proof.
  intros Hz. pose proof (le_value_le_bytes_2 z Hz) as Hv.
  cbn [le_bytes app Unpack_uint] in *. now rewrite Hv.
Qed.

(** A slice between two non-negative indices. *)
Lemma slice_nonneg {A} (l : list A) (i j : Z) :
  0 <= i -> 0 <= j ->
  slice l i j = firstn (Z.to_nat j - Z.to_nat i) (skipn (Z.to_nat i) l).
Proof.
  intros Hi Hj. unfold slice, slice_index, len.
  destruct (Z.ltb_spec i 0); [lia|]. destruct (Z.ltb_spec j 0); [lia|].
  destruct (Z.le_gt_cases i (Z.of_nat (length l))) as [Hil | Hil].
  - rewrite (Z.min_l i) by assumption.
    destruct (Z.le_gt_cases j (Z.of_nat (length l))) as [Hjl | Hjl].
    + rewrite (Z.min_l j) by assumption. f_equal. lia.
    + rewrite (Z.min_r j) by lia.
      rewrite !firstn_all2; [reflexivity | |]; rewrite length_skipn; lia.
  - rewrite (Z.min_r i) by lia. rewrite Nat2Z.id.
    rewrite !skipn_all2 by lia. now rewrite !firstn_nil.
Qed.

Lemma slice_from_nonneg {A} (l : list A) (i : Z) :
  0 <= i -> slice_from l i = skipn (Z.to_nat i) l.
Proof.
  intros Hi. unfold slice_from, slice_index, len.
  destruct (Z.ltb_spec i 0); [lia|].
  destruct (Z.le_gt_cases i (Z.of_nat (length l))) as [Hil | Hil].
  - now rewrite Z.min_l by assumption.
  - rewrite Z.min_r by lia. rewrite Nat2Z.id.
    now rewrite !skipn_all2 by lia.
Qed.

(** Two adjacent slices make one. *)
Lemma slice_then_rest {A} (l : list A) (i j : Z) :
  0 <= i <= j -> (slice l i j ++ slice_from l j)%list = slice_from l i.
Proof.
  intros Hij. rewrite slice_nonneg, !slice_from_nonneg by lia.
  replace (Z.to_nat j) with ((Z.to_nat j - Z.to_nat i) + Z.to_nat i)%nat
    at 2 by lia.
  rewrite <- skipn_skipn. apply firstn_skipn.
Qed.

(** ** Decoding a batch reply *)

Section ParseReply.
Import MultiServiceResponsePacket.

Lemma table_len (offs : list Z) : length (table offs) = (2 * length offs)%nat.
Proof.
  unfold table. induction offs as [| o os IH]; cbn [map concat length].
  - reflexivity.
  - rewrite length_app, le_bytes_length, IH. lia.
Qed.

(** Cutting the table every two bytes gives back its entries. *)
Lemma table_chunks (offs : list Z) (pre : bytes) (s : nat) :
  length pre = (2 * s)%nat ->
  map (fun i => slice (pre ++ table offs) i (i + 2))
    (map (fun k => 0 + Z.of_nat k * 2) (seq s (length offs)))
  = map (le_bytes 2) offs.
Proof.
  revert pre s; induction offs as [| o os IH]; intros pre s Hpre.
  - reflexivity.
  - cbn [length seq map]. f_equal.
    + rewrite slice_nonneg by lia.
      replace (Z.to_nat (0 + Z.of_nat s * 2)) with (length pre + 0)%nat
        by lia.
      rewrite skipn_app, skipn_all2 by lia.
      replace (length pre + 0 - length pre)%nat with 0%nat by lia.
      cbn [skipn app]. unfold table. cbn [map concat].
      replace (Z.to_nat (0 + Z.of_nat s * 2 + 2) - (length pre + 0))%nat
        with (length (le_bytes 2 o) + 0)%nat
        by (rewrite le_bytes_length; lia).
      rewrite firstn_app_2. cbn [firstn]. apply app_nil_r.
    + specialize (IH (pre ++ le_bytes 2 o) (S s)).
      rewrite <- app_assoc in IH. apply IH.
      rewrite length_app, le_bytes_length. lia.
Qed.

Lemma range_table (offs : list Z) :
  range 0 (len (table offs)) 2
  = Ok (map (fun k => 0 + Z.of_nat k * 2) (seq 0 (length offs))).
Proof.
  unfold range, len. rewrite table_len.
  change (2 =? 0) with false. change (0 <? 2) with true. cbv iota.
  do 3 f_equal.
  replace (Z.of_nat (2 * length offs) - 0 + 2 - 1)
    with (1 + Z.of_nat (length offs) * 2) by lia.
  rewrite Z.div_add by lia. change (1 / 2) with 0. lia.
Qed.

Lemma unpack_table (offs : list Z) :
  Forall (fun o => 0 <= o < 65536) offs ->
  mapM Unpack_uint (map (le_bytes 2) offs) = Ok offs.
Proof.
  induction 1 as [| o os Ho _ IH]; cbn [map mapM]; [reflexivity|].
  rewrite <- (app_nil_r (le_bytes 2 o)).
  rewrite (Unpack_uint_Pack o [] Ho). cbn [rbind]. rewrite IH. reflexivity.
Qed.

(** The offset data of a well-formed reply is its table. *)
Lemma offset_data_table (offs : list Z) (rest : bytes) :
  slice (le_bytes 2 (len offs) ++ table offs ++ rest) 2
    (2 + 2 * len offs)
  = table offs.
Proof.
  pose proof (len_nonneg offs) as Hn.
  rewrite slice_nonneg by lia.
  change (Z.to_nat 2) with (length (le_bytes 2 (len offs)) + 0)%nat.
  rewrite skipn_app, skipn_all2 by (rewrite le_bytes_length; lia).
  rewrite le_bytes_length.
  replace (2 + 0 - 2)%nat with 0%nat by lia. cbn [skipn app].
  replace (Z.to_nat (2 + 2 * len offs) - (2 + 0))%nat
    with (length (table offs) + 0)%nat
    by (rewrite table_len; unfold len; lia).
  rewrite firstn_app_2. cbn [firstn]. apply app_nil_r.
Qed.

Lemma reply_slices_length (data : bytes) (offs : list Z) :
  length (reply_slices data offs) = length offs.
Proof.
  induction offs as [| i rest IH]; [reflexivity|].
  cbn [reply_slices]. destruct rest as [| j rest']; [reflexivity|].
  cbn [length] in *. now rewrite IH.
Qed.

(** Slice [i] runs from offset [i] to offset [i + 1]. *)
Lemma reply_slices_inner (data : bytes) (offs : list Z) (i : nat) :
  (S i < length offs)%nat ->
  nth i (reply_slices data offs) []
  = slice data (nth i offs 0) (nth (S i) offs 0).
Proof.
  revert i; induction offs as [| o rest IH]; intros i Hi; cbn [length] in Hi;
    [lia|].
  destruct rest as [| j rest']; cbn [length] in Hi; [lia|].
  destruct i as [| i]; [reflexivity|].
  cbn [reply_slices]. cbn [nth]. apply IH. cbn [length]. lia.
Qed.

Lemma last_cons_nonempty {A} (x d : A) (l : list A) :
  l <> [] -> last (x :: l) d = last l d.
Proof. destruct l; [contradiction | reflexivity]. Qed.

(** The last slice runs from the last offset to the end of the buffer. *)
Lemma reply_slices_last (data : bytes) (offs : list Z) :
  offs <> [] ->
  last (reply_slices data offs) [] = slice_from data (last offs 0).
Proof.
  induction offs as [| o rest IH]; intros Hne; [contradiction|].
  destruct rest as [| j rest']; [reflexivity|].
  change (reply_slices data (o :: j :: rest'))
    with (slice data o j :: reply_slices data (j :: rest')).
  rewrite (last_cons_nonempty (slice data o j)).
  - rewrite (last_cons_nonempty o) by discriminate.
    apply IH. discriminate.
  - intros E. apply (f_equal (@length _)) in E.
    rewrite reply_slices_length in E. discriminate E.
Qed.

(** With increasing offsets the slices tile the buffer from the first
    offset on: no gap and no overlap. *)
Lemma reply_slices_tile (data : bytes) (offs : list Z) :
  offs <> [] ->
  Forall (fun o => 0 <= o) offs ->
  Sorted Z.lt offs ->
  concat (reply_slices data offs) = slice_from data (hd 0 offs).
Proof.
  induction offs as [| o rest IH]; intros Hne Hpos Hs; [contradiction|].
  destruct rest as [| j rest'].
  - cbn. apply app_nil_r.
  - change (reply_slices data (o :: j :: rest'))
      with (slice data o j :: reply_slices data (j :: rest')).
    cbn [concat hd].
    inversion Hs as [| ? ? Hs' Hhd]; subst.
    inversion Hhd as [| ? ? Hlt]; subst.
    inversion Hpos as [| ? ? Ho Hpos']; subst.
    rewrite IH; [| discriminate | assumption | assumption].
    cbn [hd]. apply slice_then_rest. lia.
Qed.

(** C5, as the code has it: for every batch reply whose leading count
    field is [n >= 1], followed by [n] two-byte offsets that are strictly
    increasing, decoded against a request of [n] operations, [_parse_reply]
    appends exactly [n] responses, response [i] being built from operation
    [i] and slice [i] of the buffer (behind the 46 bytes of padding); slice
    [i] spans from offset [i] to offset [i + 1], the last slice runs to the
    end of the buffer, and joined in order the slices are the buffer from
    the first offset on: no overlap and no gap. *)
Theorem parse_reply_slices_in_request_order :
  forall (self : t) (offs : list Z) (rest : bytes),
    offs <> [] ->
    len offs < 65536 ->
    Forall (fun o => 0 <= o < 65536) offs ->
    Sorted Z.lt offs ->
    data self = le_bytes 2 (len offs) ++ table offs ++ rest ->
    length (MultiServiceRequestPacket.requests (request self))
      = length offs ->
    let slices := reply_slices (data self) offs in
    let new :=
      map response_of
        (combine slices (MultiServiceRequestPacket.requests (request self)))
    in
    exists self',
      _parse_reply self = Ok self' /\
      responses self' = responses self ++ new /\
      length new = length offs /\
      (forall i, (S i < length offs)%nat ->
         nth i slices [] = slice (data self) (nth i offs 0) (nth (S i) offs 0))
      /\
      last slices [] = slice_from (data self) (last offs 0) /\
      concat slices = slice_from (data self) (hd 0 offs).
Proof.
  intros self offs rest Hne Hn Hrange Hsorted Hdata Hreq slices new.
  pose proof (len_nonneg offs) as Hn0.
  eexists. split; [|split; [|split; [|split; [|split]]]].
  - unfold _parse_reply. rewrite Hdata.
    rewrite Unpack_uint_Pack by lia. cbn [rbind].
    rewrite offset_data_table, range_table. cbn [rbind].
    pose proof (table_chunks offs [] 0 eq_refl) as Hc.
    cbn [app] in Hc. rewrite Hc. clear Hc.
    destruct offs as [| o os]; [contradiction|].
    cbn [map]. rewrite <- (map_cons (le_bytes 2) o os).
    rewrite unpack_table by assumption. cbn [rbind].
    rewrite <- Hdata. reflexivity.
  - reflexivity.
  - unfold new, slices.
    rewrite length_map, length_combine, reply_slices_length, Hreq.
    apply Nat.min_id.
  - intros i Hi. apply reply_slices_inner. assumption.
  - apply reply_slices_last. assumption.
  - apply reply_slices_tile; [assumption | | assumption].
    eapply Forall_impl; [|exact Hrange]. cbn beta. intros a Ha. lia.
Qed.

Lemma parse_reply_slices_in_request_order_witness :
  exists self',
    _parse_reply example_reply = Ok self' /\
    length (responses self') = 3%nat /\
    len (data example_reply) = 38 /\
    map len (reply_slices (data example_reply) [8; 18; 24]) = [10; 6; 14].
Proof.
  destruct (parse_reply_slices_in_request_order example_reply [8; 18; 24]
              (repeat x07 30)) as (self' & Hp & Hr & Hl & _).
  - discriminate.
  - reflexivity.
  - repeat constructor; discriminate.
  - repeat constructor.
  - reflexivity.
  - reflexivity.
  - exists self'. split; [exact Hp|]. split.
    + rewrite Hr. exact Hl.
    + split; reflexivity.
Defined.

(** A reply with count 0: the decoder raises on [next(end)] and returns no
    list of responses, where the spec has it return the empty list. *)
Lemma parse_reply_empty_batch_raises :
  _parse_reply empty_reply = Raise StopIteration /\
  ~ (exists self', _parse_reply empty_reply = Ok self').
Proof.
  split; [reflexivity|]. intros (self' & Hp). discriminate Hp.
Qed.

End ParseReply.

(** ** Lists *)

(** The total wire length of a list of segments. *)
Lemma len_concat_cons (x : bytes) (xs : list bytes) :
  len (concat (x :: xs)) = len x + len (concat xs).
Proof. cbn [concat]. apply len_app. Qed.


(** ** The fragmented write *)

Section WriteSend.
Import TagServiceRequestPacket.
Import WriteTagRequestPacket.
Import WriteTagFragmentedRequestPacket.
Context `{Cip} `{Base}.

(** What every constructor call that returns leaves on the packet: the
    value as given, no [_packed_type], and a request path unless an error
    is attached. *)
Lemma write_init_attributes (service : bytes) (tag : string) (elements : Z)
    (tag_info : TagInfo) (request_id : Z) (use_instance_id : bool)
    (value : pyobj) (request_path : option bytes) (p : t) :
  __init___with service tag elements tag_info request_id use_instance_id
    value request_path = Ok p ->
  _packed_type p = None /\
  WriteTagRequestPacket.value p = value /\
  (truthy_str (error (super p)) = false ->
   exists path, TagServiceRequestPacket.request_path (super p) = Some path).
Proof.
  unfold __init___with.
  cbn [set_super super set_request_path TagServiceRequestPacket.request_path
       TagServiceRequestPacket.__init__ data_type].
  destruct (resolved_path tag tag_info use_instance_id request_path)
    as [path |].
  - destruct (String.eqb (ti_tag_type tag_info) "struct").
    + destruct value as [b | l |]; try discriminate.
      destruct (ti_data_type tag_info) as [name | h]; try discriminate.
      destruct (Pack_uint h) as [ph | e]; [|discriminate].
      cbn [rbind]. destruct (Pack_uint elements) as [n | e]; [|discriminate].
      cbn [rbind]. intros Hp. injection Hp as <-. cbn.
      split; [reflexivity|]. split; [reflexivity|]. intros _. now exists path.
    + destruct (DataType (ti_data_type_name tag_info)) as [code |];
        [|discriminate].
      destruct (Pack_uint code) as [pc | e]; [|discriminate].
      cbn [rbind]. destruct (Pack_uint elements) as [n | e]; [|discriminate].
      cbn [rbind]. intros Hp. injection Hp as <-. cbn.
      split; [reflexivity|]. split; [reflexivity|]. intros _. now exists path.
  - intros Hp. injection Hp as <-. cbn.
    split; [reflexivity|]. split; [reflexivity|]. discriminate.
Qed.

(** With an error attached [send] goes to the failure response, which is
    built without the request its class requires. *)
Lemma write_send_with_error (self : t) (d : Driver) :
  truthy_str (error (super self)) = true ->
  send self d = (Raise TypeError, d).
Proof. intros He. unfold send. rewrite He. reflexivity. Qed.

(** Without an error [send] reads [_packed_type] first. *)
Lemma write_send_without_packed_type (self : t) (d : Driver) (path : bytes) :
  truthy_str (error (super self)) = false ->
  TagServiceRequestPacket.request_path (super self) = Some path ->
  _packed_type self = None ->
  send self d = (Raise AttributeError, d).
Proof.
  intros He Hpath Hpacked. unfold send. rewrite He, Hpath, Hpacked.
  reflexivity.
Qed.

(** A pass of the [for] loop does not come to its end: the response is
    built from the reply alone, which has no [tag]. *)
Lemma for_segments_raises (self : t)
    (pack_func : option (Z -> result bytes)) (elements_packed : bytes)
    (segment : pyobj) (segments : list pyobj) (msg : list pyobj)
    (offset : Z) (responses : list Response) (d : Driver) :
  exists (e : exn) (d' : Driver),
    for_segments self pack_func elements_packed (segment :: segments) msg
      offset responses d = (Raise e, d') /\
    (d' = d \/
     exists m, d' = advance d [m] 0 \/ d' = advance d [m] 1).
Proof.
  cbn [for_segments]. unfold bind, lift.
  destruct (segment_bytes_of pack_func segment) as [sb | e];
    [|exists e, d; split; [reflexivity | now left]].
  destruct (Pack_dint offset) as [o | e];
    [|exists e, d; split; [reflexivity | now left]].
  unfold _send, _receive. cbn [pending sent connection_size _sequence].
  destruct (pending d) as [| reply rest] eqn:Hpending.
  - eexists CommError, _. split; [reflexivity|].
    right. eexists. left. unfold advance. cbn [skipn]. rewrite Hpending.
    reflexivity.
  - eexists AttributeError, _. split; [reflexivity|].
    right. eexists. right. unfold advance. rewrite Hpending. reflexivity.
Qed.

(** C1, as the code has it: [send] reads [self._packed_type], which no
    constructor assigns (the packed type is kept as [_packed_data_type]).
    So for every fragmented write the constructor returns without an
    error, [send] raises [AttributeError] where the budget is computed: no
    budget, no segment, nothing handed to the transport. *)
Theorem send_constructed_write_raises :
  forall (tag : string) (elements : Z) (tag_info : TagInfo)
         (request_id : Z) (use_instance_id : bool) (value : pyobj)
         (request_path : option bytes) (p : t) (d : Driver),
    WriteTagFragmentedRequestPacket.__init__ tag elements tag_info
      request_id use_instance_id value request_path = Ok p ->
    truthy_str (error (super p)) = false ->
    _packed_type p = None /\
    send p d = (Raise AttributeError, d).
Proof.
  intros tag elements tag_info request_id use_instance_id value request_path
    p d Hp He.
  destruct (write_init_attributes _ _ _ _ _ _ _ _ _ Hp)
    as (Hpacked & _ & Hpath).
  destruct (Hpath He) as (path & Hpath').
  split; [exact Hpacked|].
  now apply write_send_without_packed_type with (path := path).
Qed.

(** C6, as the code has it: [send] never returns a response, neither the
    last reply's nor a failure response. Whatever the packet and the
    driver, it raises, after at most one message and one reply: with an
    error attached the failure response is built without its request
    ([TypeError]); without one, reading [_packed_type] fails, or, were it
    there, the response to the first segment is built from the reply in
    place of the request ([AttributeError]), and with no segment at all
    [responses[-1]] fails. *)
Theorem send_never_returns_a_response :
  forall (self : t) (d : Driver),
    exists (e : exn) (d' : Driver),
      send self d = (Raise e, d') /\
      (d' = d \/
       exists m, d' = advance d [m] 0 \/ d' = advance d [m] 1).
Proof.
  intros self d. unfold send.
  destruct (truthy_str (error (super self)));
    [exists TypeError, d; split; [reflexivity | now left]|].
  cbn [negb]. unfold bind at 1. unfold get_connection_size.
  unfold bind at 1. unfold lift at 1.
  destruct (TagServiceRequestPacket.request_path (super self)) as [path |];
    [|exists TypeError, d; split; [reflexivity | now left]].
  unfold bind at 1. unfold lift at 1.
  destruct (_packed_type self) as [packed |];
    [|exists AttributeError, d; split; [reflexivity | now left]].
  unfold bind at 1. unfold lift at 1.
  destruct (pack_func_of self) as [pack_func | e];
    [|exists e, d; split; [reflexivity | now left]].
  unfold bind at 1. unfold lift at 1.
  destruct (segments_of (value self) _) as [segments | e];
    [|exists e, d; split; [reflexivity | now left]].
  unfold bind at 1. unfold lift at 1.
  destruct (Pack_uint (elements (super self))) as [ep | e];
    [|exists e, d; split; [reflexivity | now left]].
  unfold bind at 1.
  destruct segments as [| segment segments].
  - cbn [for_segments]. unfold ret. cbn [all_valid forallb rev].
    exists IndexError, d. split; [reflexivity | now left].
  - destruct (for_segments_raises self pack_func ep segment segments
                (_msg (super self)) 0 [] d) as (e & d' & Hrun & Hd).
    rewrite Hrun. exists e, d'. split; [reflexivity | exact Hd].
Qed.

(** C8, as the code has it: a fragmented write of a value of length zero
    sends no segment and returns no response. As the constructor returns
    it, [send] raises before anything is handed to the transport
    ([AttributeError] from [_packed_type], or [TypeError] from the failure
    response when an error is attached); and [range(0, 0, segment_size)]
    is empty, so the segments of an empty value are none whatever the
    budget. *)
Theorem send_empty_value_raises :
  forall (tag : string) (elements : Z) (tag_info : TagInfo)
         (request_id : Z) (use_instance_id : bool) (value : pyobj)
         (request_path : option bytes) (p : t) (d : Driver),
    py_len value = Ok 0 ->
    WriteTagFragmentedRequestPacket.__init__ tag elements tag_info
      request_id use_instance_id value request_path = Ok p ->
    send p d
    = (Raise (if truthy_str (error (super p)) then TypeError
              else AttributeError), d) /\
    (forall segment_size : Z,
       segment_size <> 0 ->
       segments_of (WriteTagRequestPacket.value p) segment_size = Ok []).
Proof.
  intros tag elements tag_info request_id use_instance_id value request_path
    p d Hlen Hp.
  destruct (write_init_attributes _ _ _ _ _ _ _ _ _ Hp)
    as (Hpacked & Hvalue & Hpath).
  split.
  - destruct (truthy_str (error (super p))) eqn:He.
    + now apply write_send_with_error.
    + destruct (Hpath eq_refl) as (path & Hpath').
      now apply write_send_without_packed_type with (path := path).
  - intros segment_size Hsize. rewrite Hvalue. unfold segments_of.
    rewrite Hlen. cbn [rbind]. unfold range.
    destruct (Z.eqb_spec segment_size 0) as [E | _]; [contradiction|].
    assert (Hcount :
      (if 0 <? segment_size
       then (0 - 0 + segment_size - 1) / segment_size
       else (0 - 0 - segment_size - 1) / (- segment_size)) = 0).
    { destruct (Z.ltb_spec 0 segment_size).
      - apply Z.div_small. lia.
      - apply Z.div_small. lia. }
    rewrite Hcount. reflexivity.
Qed.

End WriteSend.

Section WriteSendExamples.
Import TagServiceRequestPacket.
Import WriteTagRequestPacket.
Import WriteTagFragmentedRequestPacket.

Lemma send_constructed_write_raises_witness :
  exists p,
    dint_write = Ok p /\
    _packed_type p = None /\
    @send example_cip example_base p (driver 32 four_rounds)
    = (Raise AttributeError, driver 32 four_rounds).
Proof.
  eexists. split; [reflexivity|].
  apply (@send_constructed_write_raises example_cip example_base "level" 4
           dint_info 3 true (PyList [1; 2; 3; 4]) None).
  - reflexivity.
  - reflexivity.
Defined.

Lemma send_empty_value_raises_witness :
  exists p,
    empty_write = Ok p /\
    @send example_cip example_base p (driver 500 four_rounds)
    = (Raise AttributeError, driver 500 four_rounds) /\
    @segments_of (PyBytes []) 480 = Ok [].
Proof.
  eexists. split; [reflexivity|].
  destruct (@send_empty_value_raises example_cip example_base "recipe" 1
              udt_info 3 true (PyBytes []) None _ (driver 500 four_rounds)
              eq_refl eq_refl) as (Hsend & Hsegments).
  split; [exact Hsend|].
  apply (Hsegments 480). discriminate.
Defined.

End WriteSendExamples.

(** ** The fragmented read *)

Section ReadSend.
Import TagServiceRequestPacket.
Import ReadTagFragmentedRequestPacket.
Context `{Cip} `{Base}.

(** A pass of the [while] loop does not come to its end: the response
    class is called with three arguments and takes two at most. *)
Lemma round_raises (self : t) (msg : list pyobj) (offset : Z) (d : Driver) :
  exists (e : exn) (d' : Driver),
    round self msg offset d = (Raise e, d') /\
    (d' = d \/
     exists m, d' = advance d [m] 0 \/ d' = advance d [m] 1).
Proof.
  unfold round, bind, lift.
  destruct (Pack_uint (elements (super self))) as [n | e];
    [|exists e, d; split; [reflexivity | now left]].
  destruct (Pack_dint offset) as [o | e];
    [|exists e, d; split; [reflexivity | now left]].
  unfold _send, _receive. cbn [pending sent connection_size _sequence].
  destruct (pending d) as [| reply rest] eqn:Hpending.
  - eexists CommError, _. split; [reflexivity|].
    right. eexists. left. unfold advance. cbn [skipn]. rewrite Hpending.
    reflexivity.
  - eexists TypeError, _. split; [reflexivity|].
    right. eexists. right. unfold advance. rewrite Hpending. reflexivity.
Qed.

(** The loop starts with a pass, whatever its fuel. *)
Lemma rounds_first (fuel : nat) (self : t) (msg : list pyobj) (offset : Z)
    (responses : list Response) (d : Driver) (e : exn) (d' : Driver) :
  round self msg offset d = (Raise e, d') ->
  rounds fuel self msg offset responses d = (Raise e, d').
Proof.
  intros Hround. destruct fuel; cbn [rounds]; unfold bind at 1;
    rewrite Hround; reflexivity.
Qed.

(** C2, as the code has it: the first round is the last. For every
    fragmented read without an error whose element count can be packed,
    over a driver with a reply pending, [send] hands one message to the
    transport, with offset 0, takes one reply, and raises [TypeError]:
    [ReadTagFragmentedResponsePacket] is called with the reply, the tag
    description and the element count, and takes a request and raw data.
    No offset is advanced and no payload is put together. *)
Theorem send_read_raises_in_first_round :
  forall (self : t) (d : Driver) (n reply : bytes) (rest : list bytes),
    truthy_str (error (super self)) = false ->
    Pack_uint (elements (super self)) = Ok n ->
    pending d = reply :: rest ->
    send self d
    = (Raise TypeError,
       advance d
         [_msg (super self) ++
            [PyBytes Services_read_tag_fragmented;
             of_path (request_path (super self));
             PyBytes n; PyBytes (le_bytes 4 0)]] 1).
Proof.
  intros self d n reply rest He Hn Hpending.
  unfold send. rewrite He. cbn [negb].
  unfold bind at 1. unfold pending_count.
  unfold bind at 1.
  rewrite (rounds_first _ _ _ _ _ _ TypeError
             (advance d
                [_msg (super self) ++
                   [PyBytes Services_read_tag_fragmented;
                    of_path (request_path (super self));
                    PyBytes n; PyBytes (le_bytes 4 0)]] 1));
    [reflexivity|].
  unfold round, bind, lift. rewrite Hn.
  change (Pack_dint 0) with (Ok (le_bytes 4 0)).
  unfold _send, _receive, advance.
  cbn [pending sent connection_size _sequence].
  rewrite Hpending. reflexivity.
Qed.

End ReadSend.

Section ReadSendExamples.
Import TagServiceRequestPacket.
Import ReadTagFragmentedRequestPacket.

Lemma send_read_raises_in_first_round_witness :
  @send example_cip example_base fragmented_read (driver 500 four_rounds)
  = (Raise TypeError,
     {| connection_size := 500; _sequence := 1;
        sent := [[PyBytes [x52];
                  PyBytes [x91; x04; x64; x61; x74; x61];
                  PyBytes [x0a; x00];
                  PyBytes [x00; x00; x00; x00]]];
        pending := [[x04; x05]; [x06]; [x07; x08]] |}).
Proof.
  apply (@send_read_raises_in_first_round example_cip example_base
           fragmented_read (driver 500 four_rounds) [x0a; x00]
           [x01; x02; x03] [[x04; x05]; [x06]; [x07; x08]]).
  - reflexivity.
  - reflexivity.
  - reflexivity.
Defined.

End ReadSendExamples.

(** ** Cutting a value into segments *)

Section Segments.
Context {A : Type}.

Lemma firstn_add (a b : nat) (l : list A) :
  firstn (a + b) l = firstn a l ++ firstn b (skipn a l).
Proof.
  revert l; induction a as [| a IH]; intros l; [reflexivity|].
  destruct l as [| x l]; cbn [Nat.add firstn skipn app].
  - now rewrite firstn_nil.
  - now rewrite IH.
Qed.

(** The slice that starts at the [k]-th multiple of the segment size. *)
Lemma slice_chunk (l : list A) (k : nat) (size : Z) :
  0 < size ->
  slice l (0 + Z.of_nat k * size) (0 + Z.of_nat k * size + size)
  = firstn (Z.to_nat size) (skipn (k * Z.to_nat size) l).
Proof.
  intros Hs. rewrite slice_nonneg by nia.
  replace (Z.to_nat (0 + Z.of_nat k * size)) with (k * Z.to_nat size)%nat
    by nia.
  replace (Z.to_nat (0 + Z.of_nat k * size + size) - k * Z.to_nat size)%nat
    with (Z.to_nat size) by nia.
  reflexivity.
Qed.

Lemma chunks_concat (l : list A) (s c : nat) :
  forall k0 : nat,
    concat (map (fun k => firstn s (skipn (k * s) l)) (seq k0 c))
    = firstn (c * s) (skipn (k0 * s) l).
Proof.
  induction c as [| c IH]; intros k0; [reflexivity|].
  cbn [seq map concat]. rewrite IH.
  replace (S k0 * s)%nat with (s + k0 * s)%nat by lia.
  rewrite <- skipn_skipn.
  replace (S c * s)%nat with (s + c * s)%nat by lia.
  now rewrite firstn_add.
Qed.

(** The number of segments [range] makes is enough to cover the value. *)
Lemma segment_count_covers (n size : Z) :
  0 <= n -> 0 < size ->
  (Z.to_nat n <= Z.to_nat ((n - 0 + size - 1) / size) * Z.to_nat size)%nat.
Proof.
  intros Hn Hs.
  pose proof (Z.div_mod (n - 0 + size - 1) size ltac:(lia)) as Hdm.
  pose proof (Z.mod_pos_bound (n - 0 + size - 1) size Hs) as Hm.
  assert (Hq : 0 <= (n - 0 + size - 1) / size) by (apply Z.div_pos; lia).
  nia.
Qed.

(** With a positive segment size the slices taken at the starts given by
    [range] are consecutive, cover the value, and hold at most
    [segment_size] items each. *)
Lemma slices_cover (l : list A) (size : Z) :
  0 < size ->
  exists chunks,
    (starts <- range 0 (len l) size ;;
     Ok (map (fun i => slice l i (i + size)) starts))%res = Ok chunks /\
    concat chunks = l /\
    Forall (fun c => len c <= size) chunks.
Proof.
  intros Hs. unfold range.
  destruct (Z.eqb_spec size 0) as [E | _]; [lia|].
  destruct (Z.ltb_spec 0 size) as [_ | E]; [|lia].
  cbn [rbind]. eexists. split; [reflexivity|]. rewrite map_map.
  rewrite (map_ext _ (fun k => firstn (Z.to_nat size)
                                 (skipn (k * Z.to_nat size) l)))
    by (intros k; apply slice_chunk; assumption).
  split.
  - rewrite chunks_concat. cbn [Nat.mul skipn].
    apply firstn_all2.
    pose proof (segment_count_covers (len l) size (len_nonneg l) Hs) as Hc.
    unfold len in Hc. rewrite Nat2Z.id in Hc. exact Hc.
  - apply Forall_forall. intros c Hc. apply in_map_iff in Hc.
    destruct Hc as (k & <- & _). unfold len. rewrite length_firstn. lia.
Qed.

End Segments.

Lemma mapM_map {X Y} (f : X -> result Y) (g : X -> Y) (l : list X) :
  (forall x, f x = Ok (g x)) -> mapM f l = Ok (map g l).
Proof.
  intros Hfg. induction l as [| x xs IH]; [reflexivity|].
  cbn [mapM map]. rewrite Hfg, IH. reflexivity.
Qed.

Section OpaqueSegments.
Import WriteTagFragmentedRequestPacket.
Context `{Cip}.

Lemma wire_of_bytes (pack_func : option (Z -> result bytes))
    (chunks : list bytes) :
  mapM (segment_bytes_of pack_func) (map PyBytes chunks) = Ok chunks.
Proof.
  induction chunks as [| c cs IH]; [reflexivity|].
  cbn [map mapM segment_bytes_of rbind]. rewrite IH. reflexivity.
Qed.

(** An opaque value and a positive budget: the segments are byte strings,
    consecutive and without overlap (joined they are the value), each no
    longer than the budget; they go on the wire as they are, so their
    lengths sum to the length of the value. *)
Lemma segments_of_bytes (b : bytes) (segment_size : Z)
    (pack_func : option (Z -> result bytes)) :
  0 < segment_size ->
  exists chunks,
    segments_of (PyBytes b) segment_size = Ok (map PyBytes chunks) /\
    mapM (segment_bytes_of pack_func) (map PyBytes chunks) = Ok chunks /\
    concat chunks = b /\
    len (concat chunks) = len b /\
    Forall (fun c => len c <= segment_size) chunks.
Proof.
  intros Hs.
  destruct (slices_cover b segment_size Hs) as (chunks & Hr & Hc & Hf).
  exists chunks. unfold segments_of. cbn [py_len rbind].
  destruct (range 0 (len b) segment_size) as [starts |] eqn:Er;
    cbn [rbind] in *; [|discriminate].
  injection Hr as <-.
  split; [|split; [|split; [|split]]].
  - rewrite (mapM_map _ (fun i => PyBytes (slice b i (i + segment_size))))
      by reflexivity.
    now rewrite map_map.
  - apply wire_of_bytes.
  - exact Hc.
  - now rewrite Hc.
  - exact Hf.
Qed.

End OpaqueSegments.

Section AtomicSegments.
Import TagServiceRequestPacket.
Import WriteTagRequestPacket.
Import WriteTagFragmentedRequestPacket.
Context `{Cip}.

(** Elements that each pack to [w] bytes pack to [w] bytes per element. *)
Lemma packed_width (f : Z -> result bytes) (w : Z) (l : list Z) :
  (forall x, In x l -> exists bs, f x = Ok bs /\ len bs = w) ->
  exists packed, mapM f l = Ok packed /\ len (join packed) = w * len l.
Proof.
  induction l as [| x xs IH]; intros Hf.
  - exists []. split; [reflexivity|]. unfold len. cbn. lia.
  - destruct (Hf x (or_introl eq_refl)) as (bs & Hx & Hw).
    destruct IH as (packed & Hp & Hl);
      [intros y Hy; apply Hf; right; exact Hy|].
    exists (bs :: packed). cbn [mapM]. rewrite Hx, Hp. cbn [rbind].
    split; [reflexivity|]. unfold join in *. cbn [concat].
    rewrite len_app, Hw, Hl. unfold len. cbn [length].
    rewrite Nat2Z.inj_succ. lia.
Qed.

(** An atomic value given as a sequence and a positive budget: the
    segments are consecutive runs of elements that cover the value, each
    of at most [segment_size] elements; on the wire the segments take the
    element width times the number of elements, in all and each. *)
Lemma segments_of_list (l : list Z) (segment_size w : Z)
    (f : Z -> result bytes) :
  0 < segment_size ->
  (forall x, In x l -> exists bs, f x = Ok bs /\ len bs = w) ->
  exists chunks wire,
    segments_of (PyList l) segment_size = Ok (map PyList chunks) /\
    mapM (segment_bytes_of (Some f)) (map PyList chunks) = Ok wire /\
    concat chunks = l /\
    Forall (fun c => len c <= segment_size) chunks /\
    Forall2 (fun c bs => len bs = w * len c) chunks wire /\
    len (concat wire) = w * len l.
Proof.
  intros Hs Hf.
  destruct (slices_cover l segment_size Hs) as (chunks & Hr & Hc & Hb).
  assert (Hwire :
    exists wire,
      mapM (segment_bytes_of (Some f)) (map PyList chunks) = Ok wire /\
      Forall2 (fun c bs => len bs = w * len c) chunks wire /\
      len (concat wire) = w * len (concat chunks)).
  { rewrite <- Hc in Hf. clear Hr Hc Hb.
    induction chunks as [| c cs IH].
    - exists []. split; [reflexivity|]. split; [constructor|].
      unfold len. cbn. lia.
    - destruct (packed_width f w c) as (packed & Hp & Hl).
      { intros x Hx. apply Hf. cbn [concat]. apply in_or_app. now left. }
      destruct IH as (wire & Hm & Hf2 & Hlen).
      { intros x Hx. apply Hf. cbn [concat]. apply in_or_app. now right. }
      exists (join packed :: wire).
      cbn [map mapM segment_bytes_of]. rewrite Hp. cbn [rbind].
      rewrite Hm. cbn [rbind]. split; [reflexivity|].
      split; [constructor; assumption|].
      cbn [concat]. rewrite !len_app, Hl, Hlen. lia. }
  destruct Hwire as (wire & Hm & Hf2 & Hlen).
  exists chunks, wire. unfold segments_of. cbn [py_len rbind].
  destruct (range 0 (len l) segment_size) as [starts |] eqn:Er;
    cbn [rbind] in *; [|discriminate].
  injection Hr as <-.
  split; [|split; [|split; [|split; [|split]]]].
  - rewrite (mapM_map _ (fun i => PyList (slice l i (i + segment_size))))
      by reflexivity.
    now rewrite map_map.
  - rewrite <- Hm. reflexivity.
  - exact Hc.
  - exact Hb.
  - exact Hf2.
  - now rewrite Hlen, Hc.
Qed.


End AtomicSegments.


(** * Further properties *)

(** ** The masks over a run of set_bit calls *)

Section SetBits.
Import ReadModifyWriteRequestPacket.

Lemma testbit_one_elsewhere (e i : Z) :
  0 <= e -> i <> e -> Z.testbit (Z.shiftl 1 e) i = false.
Proof.
  intros He Hi. destruct (Z.lt_ge_cases i 0) as [Hneg | Hpos].
  - apply Z.testbit_neg_r. assumption.
  - rewrite Z.shiftl_spec by assumption.
    destruct (i - e) as [| p | p] eqn:E; [lia | | reflexivity].
    destruct p; reflexivity.
Qed.

Lemma testbit_set_elsewhere (x e i : Z) :
  0 <= e -> i <> e ->
  Z.testbit (Z.lor x (Z.shiftl 1 e)) i = Z.testbit x i.
Proof.
  intros He Hi. rewrite Z.lor_spec, testbit_one_elsewhere by assumption.
  apply orb_false_r.
Qed.

Lemma testbit_clear_elsewhere (x e i : Z) :
  0 <= e -> i <> e ->
  Z.testbit (Z.land x (Z.lnot (Z.shiftl 1 e))) i = Z.testbit x i.
Proof.
  intros He Hi. destruct (Z.lt_ge_cases i 0) as [Hneg | Hpos].
  - now rewrite !Z.testbit_neg_r.
  - rewrite Z.land_spec, Z.lnot_spec, testbit_one_elsewhere by assumption.
    apply andb_true_r.
Qed.

Lemma set_bit_ok_nonneg (self self' : t) (bit : Z) (v : bool) (rid : Z) :
  set_bit self bit v rid = Ok self' -> 0 <= effective_bit self bit.
Proof.
  unfold set_bit, shift_one, effective_bit.
  destruct (Z.ltb_spec
              (if String.eqb (data_type self) "DWORD" then bit mod 32
               else bit) 0); [discriminate | intros _; assumption].
Qed.

(** X1: a call of [set_bit] that returns changes no bit of either mask
    other than the one it works on, and changes no other attribute of the
    packet but the two bookkeeping lists [bits] and [_request_ids]. *)
Theorem set_bit_leaves_other_bits :
  forall (self self' : t) (bit : Z) (v : bool) (rid : Z),
    set_bit self bit v rid = Ok self' ->
    (forall i, i <> effective_bit self bit ->
       Z.testbit (_or_mask self') i = Z.testbit (_or_mask self) i /\
       Z.testbit (_and_mask self') i = Z.testbit (_and_mask self) i) /\
    tag self' = tag self /\
    value self' = value self /\
    elements self' = elements self /\
    tag_info self' = tag_info self /\
    request_id self' = request_id self /\
    _use_instance_id self' = _use_instance_id self /\
    data_type self' = data_type self /\
    request_path self' = request_path self /\
    _mask_size self' = _mask_size self /\
    _msg self' = _msg self /\
    error self' = error self.
Proof.
  intros self self' bit v rid Hs.
  pose proof (set_bit_ok_nonneg _ _ _ _ _ Hs) as He.
  rewrite set_bit_unfold in Hs by assumption. injection Hs as <-.
  split; [|destruct v; repeat split].
  intros i Hi. destruct v; cbn [record_bit set_masks _or_mask _and_mask].
  - now rewrite !testbit_set_elsewhere.
  - now rewrite !testbit_clear_elsewhere.
Qed.

Lemma set_bit_leaves_other_bits_witness :
  exists self',
    set_bit dword_packet 35 true 1 = Ok self' /\
    Z.testbit (_or_mask self') 35 = Z.testbit (_or_mask dword_packet) 35 /\
    Z.testbit (_and_mask self') 4 = Z.testbit (_and_mask dword_packet) 4.
Proof.
  eexists. split; [reflexivity|].
  destruct (set_bit_leaves_other_bits dword_packet _ 35 true 1 eq_refl)
    as (Hbits & _).
  split.
  - apply (Hbits 35). discriminate.
  - apply (Hbits 4). discriminate.
Defined.

(** The masks after a run of calls, bit by bit. *)
Lemma set_bits_masks (calls : list (Z * bool * Z)) :
  forall (self acc : t),
    set_bits self calls = Ok acc ->
    data_type acc = data_type self /\
    forall i,
      Z.testbit (_or_mask acc) i
      = match last_write self calls i with
        | Some v => v
        | None => Z.testbit (_or_mask self) i
        end /\
      Z.testbit (_and_mask acc) i
      = match last_write self calls i with
        | Some v => v
        | None => Z.testbit (_and_mask self) i
        end.
Proof.
  induction calls as [| [[bit v] rid] rest IH]; intros self acc Hs.
  - cbn in Hs. injection Hs as <-. split; [reflexivity|].
    intros i; split; reflexivity.
  - cbn [set_bits] in Hs.
    destruct (set_bit self bit v rid) as [self' |] eqn:E1;
      cbn [rbind] in Hs; [|discriminate].
    destruct (IH self' acc Hs) as (Hd & Hbits).
    destruct (set_bit_last_wins _ _ _ _ _ E1) as (Ho & Ha & Hd').
    pose proof (set_bit_ok_nonneg _ _ _ _ _ E1) as He.
    split; [congruence|]. intros i.
    assert (Hlw : last_write self' rest i = last_write self rest i).
    { clear -Hd'. induction rest as [| [[b w] r] rest IHr]; [reflexivity|].
      cbn [last_write]. rewrite IHr.
      now rewrite (effective_bit_same_type self' self). }
    cbn [last_write]. rewrite <- Hlw.
    destruct (Hbits i) as (Hoi & Hai). rewrite Hoi, Hai.
    destruct (last_write self' rest i) as [w |]; [split; reflexivity|].
    destruct (Z.eqb_spec (effective_bit self bit) i) as [<- | Hne].
    + split; assumption.
    + rewrite set_bit_unfold in E1 by assumption. injection E1 as <-.
      destruct v; cbn [record_bit set_masks _or_mask _and_mask].
      * rewrite !testbit_set_elsewhere by (assumption || congruence).
        split; reflexivity.
      * rewrite !testbit_clear_elsewhere by (assumption || congruence).
        split; reflexivity.
Qed.

(** X2: for a packet as the constructor builds it and any run of
    [set_bit] calls that returns, each bit of the two masks is decided by
    the last call working on it: both masks hold that call's value there;
    a bit no call works on is 0 in the OR-mask and, below bit 64, 1 in the
    AND-mask, so that the target keeps its old value. *)
Theorem set_bits_from_fresh_packet `{Cip} :
  forall (tag : string) (tag_info : TagInfo) (request_id : Z)
         (use_instance_id : bool) (calls : list (Z * bool * Z))
         (self acc : t),
    __init__ tag tag_info request_id use_instance_id = Ok self ->
    set_bits self calls = Ok acc ->
    forall i, 0 <= i ->
      Z.testbit (_or_mask acc) i
      = match last_write self calls i with
        | Some v => v
        | None => false
        end /\
      Z.testbit (_and_mask acc) i
      = match last_write self calls i with
        | Some v => v
        | None => i <? 64
        end.
Proof.
  intros tag tag_info request_id use_instance_id calls self acc Hinit Hs i
    Hi.
  destruct (set_bits_masks calls self acc Hs) as (_ & Hbits).
  destruct (Hbits i) as (Ho & Ha). rewrite Ho, Ha.
  unfold __init__ in Hinit.
  destruct (DataTypeSize (ti_data_type_name tag_info)); [|discriminate].
  injection Hinit as <-. cbn [_or_mask _and_mask].
  destruct (last_write _ calls i); [split; reflexivity|].
  split; [apply Z.bits_0|].
  change 18446744073709551615 with (Z.ones 64).
  destruct (Z.ltb_spec i 64).
  - apply Z.ones_spec_low. lia.
  - apply Z.ones_spec_high. lia.
Qed.

Lemma set_bits_from_fresh_packet_witness :
  exists acc,
    set_bits dword_packet [(0, true, 1); (33, true, 2); (1, false, 3)]
    = Ok acc /\
    Z.testbit (_or_mask acc) 1 = false /\
    Z.testbit (_and_mask acc) 1 = false /\
    Z.testbit (_or_mask acc) 5 = false /\
    Z.testbit (_and_mask acc) 5 = true.
Proof.
  eexists. split; [reflexivity|].
  pose proof (@set_bits_from_fresh_packet example_cip "flags" dword_info 7
                true [(0, true, 1); (33, true, 2); (1, false, 3)]
                dword_packet _ eq_refl eq_refl) as Hb.
  destruct (Hb 1 ltac:(lia)) as (H1 & H2).
  destruct (Hb 5 ltac:(lia)) as (H3 & H4).
  repeat split; assumption.
Defined.

End SetBits.

(** ** Masks that can be packed *)

Section MaskRange.
Import ReadModifyWriteRequestPacket.

Lemma bits_of_in_range (x n i : Z) :
  0 <= x < 2 ^ n -> n <= i -> Z.testbit x i = false.
Proof.
  intros [H0 Hn] Hi. destruct (Z.eq_dec x 0) as [-> | Hx].
  - apply Z.bits_0.
  - apply Z.bits_above_log2; [assumption|].
    assert (Z.log2 x < n) by (apply Z.log2_lt_pow2; lia). lia.
Qed.

Lemma in_range_of_bits (x n : Z) :
  0 <= x -> 0 <= n ->
  (forall i, n <= i -> Z.testbit x i = false) -> x < 2 ^ n.
Proof.
  intros H0 Hn Hbits.
  assert (E : x = x mod 2 ^ n).
  { apply Z.bits_inj'. intros i Hi. destruct (Z.lt_ge_cases i n).
    - now rewrite Z.mod_pow2_bits_low.
    - rewrite Z.mod_pow2_bits_high by lia. now apply Hbits. }
  rewrite E. apply Z.mod_pos_bound. apply Z.pow_pos_nonneg; lia.
Qed.

Lemma set_keeps_range (x e : Z) :
  0 <= e < 64 -> mask_in_range x ->
  mask_in_range (Z.lor x (Z.shiftl 1 e)).
Proof.
  unfold mask_in_range. change 18446744073709551616 with (2 ^ 64).
  intros He Hx. split.
  - apply Z.lor_nonneg. split; [lia|]. apply Z.shiftl_nonneg. lia.
  - apply in_range_of_bits; [| lia |].
    + apply Z.lor_nonneg. split; [lia|]. apply Z.shiftl_nonneg. lia.
    + intros i Hi. rewrite testbit_set_elsewhere by lia.
      now apply (bits_of_in_range x 64).
Qed.

Lemma clear_keeps_range (x e : Z) :
  0 <= e < 64 -> mask_in_range x ->
  mask_in_range (Z.land x (Z.lnot (Z.shiftl 1 e))).
Proof.
  unfold mask_in_range. change 18446744073709551616 with (2 ^ 64).
  intros He Hx. split.
  - apply Z.land_nonneg. left. lia.
  - apply in_range_of_bits; [| lia |].
    + apply Z.land_nonneg. left. lia.
    + intros i Hi. rewrite testbit_clear_elsewhere by lia.
      now apply (bits_of_in_range x 64).
Qed.

(** One call on a bit below 64 keeps both masks where [Pack.ulint] takes
    them. *)
Lemma set_bit_keeps_range (self : t) (bit : Z) (v : bool) (rid : Z) :
  0 <= effective_bit self bit < 64 ->
  mask_in_range (_or_mask self) -> mask_in_range (_and_mask self) ->
  exists self',
    set_bit self bit v rid = Ok self' /\
    mask_in_range (_or_mask self') /\ mask_in_range (_and_mask self') /\
    data_type self' = data_type self /\ _mask_size self' = _mask_size self.
Proof.
  intros He Ho Ha. rewrite set_bit_unfold by lia.
  eexists. split; [reflexivity|].
  destruct v; cbn [record_bit set_masks _or_mask _and_mask data_type
                   _mask_size];
    repeat split;
    try (apply set_keeps_range; assumption);
    try (apply clear_keeps_range; assumption).
Qed.

(** X3: when both masks fit in 64 bits, as they do in a new packet, and
    every call of a run works on a bit below 64, the run returns, the
    masks still fit in 64 bits, and [build_request] returns a message
    whenever the mask size fits its two-byte field. *)
Theorem set_bits_then_build_request `{Cip} :
  forall (calls : list (Z * bool * Z)) (self : t),
    mask_in_range (_or_mask self) ->
    mask_in_range (_and_mask self) ->
    0 <= _mask_size self < 65536 ->
    Forall (fun c => 0 <= effective_bit self (fst (fst c)) < 64) calls ->
    exists acc p,
      set_bits self calls = Ok acc /\
      mask_in_range (_or_mask acc) /\
      mask_in_range (_and_mask acc) /\
      build_request acc = Ok p.
Proof.
  induction calls as [| [[bit v] rid] rest IH];
    intros self Ho Ha Hsize Hcalls.
  - exists self. unfold build_request.
    rewrite Pack_uint_ok by assumption. cbn [rbind].
    unfold Pack_ulint.
    destruct Ho as [Ho0 Ho1], Ha as [Ha0 Ha1].
    destruct (Z.leb_spec 0 (_or_mask self)); [|lia].
    destruct (Z.ltb_spec (_or_mask self) 18446744073709551616); [|lia].
    destruct (Z.leb_spec 0 (_and_mask self)); [|lia].
    destruct (Z.ltb_spec (_and_mask self) 18446744073709551616); [|lia].
    cbn [andb rbind]. eexists. split; [reflexivity|].
    split; [split; assumption|]. split; [split; assumption | reflexivity].
  - inversion Hcalls as [| ? ? Hc Hrest]; subst. cbn [fst] in Hc.
    destruct (set_bit_keeps_range self bit v rid Hc Ho Ha)
      as (self' & Hs & Ho' & Ha' & Hd & Hm).
    destruct (IH self' Ho' Ha') as (acc & p & Hrun & Hoa & Haa & Hb).
    + rewrite Hm. assumption.
    + eapply Forall_impl; [|exact Hrest]. cbn beta. intros c Hcc.
      now rewrite (effective_bit_same_type self' self).
    + exists acc, p. cbn [set_bits]. rewrite Hs. cbn [rbind].
      split; [exact Hrun|]. split; [exact Hoa|]. split; [exact Haa|].
      exact Hb.
Qed.

Lemma set_bits_then_build_request_witness :
  exists acc p,
    set_bits dword_packet [(0, true, 1); (-1, true, 2); (99, false, 3)]
    = Ok acc /\
    @build_request example_cip acc = Ok p.
Proof.
  destruct (@set_bits_then_build_request example_cip
              [(0, true, 1); (-1, true, 2); (99, false, 3)] dword_packet)
    as (acc & p & Hs & _ & _ & Hb).
  - unfold mask_in_range. cbn. lia.
  - unfold mask_in_range. cbn. lia.
  - cbn. lia.
  - repeat constructor; cbn; lia.
  - exists acc, p. split; assumption.
Defined.

(** X4: for a type other than DWORD the bit index is used as it is: a
    negative index makes [set_bit] raise [ValueError], and setting a bit
    from 64 up makes the OR-mask too large for its eight-byte field, so
    that [build_request] then raises [struct.error]. *)
Theorem set_bit_out_of_range `{Cip} :
  forall (self : t) (bit rid : Z),
    data_type self <> "DWORD" ->
    0 <= _or_mask self ->
    0 <= _mask_size self < 65536 ->
    (bit < 0 -> forall v, set_bit self bit v rid = Raise ValueError) /\
    (64 <= bit ->
     exists self',
       set_bit self bit true rid = Ok self' /\
       build_request self' = Raise StructError).
Proof.
  intros self bit rid Hd Ho Hsize.
  assert (Heff : effective_bit self bit = bit).
  { unfold effective_bit.
    destruct (String.eqb_spec (data_type self) "DWORD"); [contradiction|].
    reflexivity. }
  split.
  - intros Hneg v. unfold set_bit. fold (effective_bit self bit).
    rewrite Heff. unfold shift_one.
    destruct (Z.ltb_spec bit 0); [reflexivity | lia].
  - intros Hbig. rewrite set_bit_unfold by lia. rewrite Heff.
    eexists. split; [reflexivity|].
    unfold build_request.
    cbn [record_bit set_masks _or_mask _and_mask _mask_size].
    rewrite Pack_uint_ok by assumption. cbn [rbind].
    assert (Hover : 18446744073709551616 <= Z.lor (_or_mask self)
                                              (Z.shiftl 1 bit)).
    { destruct (Z.le_gt_cases 18446744073709551616
                  (Z.lor (_or_mask self) (Z.shiftl 1 bit)))
        as [Hle | Hlt]; [assumption|].
      exfalso.
      assert (Hset : Z.testbit (Z.lor (_or_mask self) (Z.shiftl 1 bit)) bit
                     = true) by (apply testbit_set; lia).
      rewrite (bits_of_in_range _ 64) in Hset; [discriminate | | assumption].
      split; [|exact Hlt].
      apply Z.lor_nonneg. split; [assumption|].
      apply Z.shiftl_nonneg. lia. }
    unfold Pack_ulint.
    destruct (Z.ltb_spec (Z.lor (_or_mask self) (Z.shiftl 1 bit))
                18446744073709551616); [lia|].
    rewrite andb_false_r. reflexivity.
Qed.

Lemma set_bit_out_of_range_witness :
  set_bit dint_packet (-1) true 1 = Raise ValueError /\
  exists self',
    set_bit dint_packet 64 true 1 = Ok self' /\
    @build_request example_cip self' = Raise StructError.
Proof.
  destruct (@set_bit_out_of_range example_cip dint_packet (-1) 1)
    as (Hneg & _);
    [discriminate | cbn; lia | cbn; lia |].
  destruct (@set_bit_out_of_range example_cip dint_packet 64 1)
    as (_ & Hbig);
    [discriminate | cbn; lia | cbn; lia |].
  split; [apply Hneg; lia | apply Hbig; lia].
Defined.

End MaskRange.

(** ** Bookkeeping and wire form of a read-modify-write *)

Section MaskWire.
Import ReadModifyWriteRequestPacket.

(** X5: a run of [set_bit] calls that returns appends one entry per call,
    in call order, to [bits] (the bit as reduced for the type) and to
    [_request_ids] (the request id as given), so the two lists stay
    aligned. *)
Theorem set_bits_records_calls :
  forall (calls : list (Z * bool * Z)) (self acc : t),
    set_bits self calls = Ok acc ->
    bits acc
    = bits self ++ map (fun c => effective_bit self (fst (fst c))) calls /\
    _request_ids acc = _request_ids self ++ map snd calls /\
    (length (bits self) = length (_request_ids self) ->
     length (bits acc) = length (_request_ids acc)).
Proof.
  induction calls as [| [[bit v] rid] rest IH]; intros self acc Hs.
  - cbn in Hs. injection Hs as <-. cbn [map]. rewrite !app_nil_r.
    repeat split. intros E; exact E.
  - cbn [set_bits] in Hs.
    destruct (set_bit self bit v rid) as [self' |] eqn:E1;
      cbn [rbind] in Hs; [|discriminate].
    destruct (IH self' acc Hs) as (Hb & Hr & _).
    pose proof (set_bit_ok_nonneg _ _ _ _ _ E1) as He.
    destruct (set_bit_last_wins _ _ _ _ _ E1) as (_ & _ & Hd).
    rewrite set_bit_unfold in E1 by assumption. injection E1 as E1.
    assert (Hbits' : bits self' = bits self ++ [effective_bit self bit])
      by (rewrite <- E1; destruct v; reflexivity).
    assert (Hrids' : _request_ids self' = _request_ids self ++ [rid])
      by (rewrite <- E1; destruct v; reflexivity).
    assert (Hb2 :
      bits acc
      = bits self
        ++ map (fun c => effective_bit self (fst (fst c)))
             ((bit, v, rid) :: rest)).
    { rewrite Hb, Hbits', <- app_assoc. cbn [map app fst]. do 2 f_equal.
      apply map_ext. intros c.
      now apply effective_bit_same_type. }
    assert (Hr2 :
      _request_ids acc = _request_ids self ++ map snd ((bit, v, rid) :: rest)).
    { rewrite Hr, Hrids', <- app_assoc. reflexivity. }
    split; [exact Hb2|]. split; [exact Hr2|].
    intros Hlen. rewrite Hb2, Hr2, !length_app, !length_map. lia.
Qed.

Lemma set_bits_records_calls_witness :
  exists acc,
    set_bits dword_packet [(0, true, 11); (35, false, 12)] = Ok acc /\
    bits acc = [0; 3] /\ _request_ids acc = [11; 12].
Proof.
  eexists. split; [reflexivity|].
  destruct (set_bits_records_calls [(0, true, 11); (35, false, 12)]
              dword_packet _ eq_refl) as (Hb & Hr & _).
  split; [exact Hb | exact Hr].
Defined.

(** The first [k] bytes of a little-endian encoding hold the value modulo
    [256 ^ k]. *)
Lemma le_value_firstn (k : nat) :
  forall (n : nat) (z : Z),
    (k <= n)%nat ->
    le_value (firstn k (le_bytes n z)) = z mod 256 ^ Z.of_nat k.
Proof.
  induction k as [| k IH]; intros n z Hk.
  - cbn [firstn le_value]. change (256 ^ Z.of_nat 0) with 1.
    now rewrite Z.mod_1_r.
  - destruct n as [| n]; [lia|].
    cbn [le_bytes firstn le_value]. rewrite IH by lia.
    rewrite Z_of_byte_of_Z, Z.mod_mod by lia.
    rewrite Nat2Z.inj_succ, Z.pow_succ_r by lia.
    rewrite Z.rem_mul_r; [reflexivity | lia |].
    apply Z.pow_pos_nonneg; lia.
Qed.

Lemma Pack_ulint_bytes (z : Z) (b : bytes) :
  Pack_ulint z = Ok b -> b = le_bytes 8 z.
Proof.
  unfold Pack_ulint.
  destruct ((0 <=? z) && (z <? 18446744073709551616)); [|discriminate].
  now intros [= <-].
Qed.

(** X6: the message [build_request] makes has five items: the service
    code, the request path, the mask size on two bytes, and the two
    masks; for a mask size from 0 to 8 the OR-mask item is exactly that
    many bytes long and holds, little-endian, the OR-mask modulo
    [256 ^ size]. *)
Theorem build_request_or_mask_field `{Cip} :
  forall (self p : t),
    build_request self = Ok p ->
    0 <= _mask_size self <= 8 ->
    exists or_bytes and_bytes,
      _msg p
      = [PyBytes Services_read_modify_write;
         of_path (request_path self);
         PyBytes (le_bytes 2 (_mask_size self));
         PyBytes or_bytes;
         PyBytes and_bytes] /\
      len or_bytes = _mask_size self /\
      le_value or_bytes = _or_mask self mod 256 ^ _mask_size self.
Proof.
  intros self p Hb Hsize. unfold build_request in Hb.
  rewrite Pack_uint_ok in Hb by lia.
  destruct (Pack_ulint (_or_mask self)) as [ob |] eqn:Eo;
    [|discriminate Hb].
  destruct (Pack_ulint (_and_mask self)) as [ab |] eqn:Ea;
    [|discriminate Hb].
  unfold rbind in Hb. injection Hb as <-.
  apply Pack_ulint_bytes in Eo. subst ob.
  do 2 eexists. split; [reflexivity|].
  assert (Hidx : slice_index (le_bytes 8 (_or_mask self)) (_mask_size self)
                 = _mask_size self).
  { unfold slice_index, len. rewrite le_bytes_length.
    destruct (Z.ltb_spec (_mask_size self) 0); lia. }
  unfold slice_to. rewrite Hidx. split.
  - unfold len. rewrite length_firstn, le_bytes_length. lia.
  - rewrite le_value_firstn by lia. now rewrite Z2Nat.id by lia.
Qed.

Lemma build_request_or_mask_field_witness :
  exists acc p or_bytes and_bytes,
    set_bits dword_packet [(0, true, 1); (9, true, 2)] = Ok acc /\
    @build_request example_cip acc = Ok p /\
    nth 3 (_msg p) PyNone = PyBytes or_bytes /\
    nth 4 (_msg p) PyNone = PyBytes and_bytes /\
    len or_bytes = 4 /\
    le_value or_bytes = 513.
Proof.
  eexists. eexists.
  assert (Hb : @build_request example_cip
                 (record_bit
                    (set_masks
                       (record_bit (set_masks dword_packet 1 (Z.ones 64)) 0 1)
                       513 (Z.ones 64)) 9 2)
               = Ok (set_msg
                       (record_bit
                          (set_masks
                             (record_bit
                                (set_masks dword_packet 1 (Z.ones 64)) 0 1)
                             513 (Z.ones 64)) 9 2)
                       [PyBytes [x4e];
                        of_path (request_path dword_packet);
                        PyBytes [x04; x00];
                        PyBytes [x01; x02; x00; x00];
                        PyBytes (repeat xff 8)]))
    by (vm_compute; reflexivity).
  destruct (@build_request_or_mask_field example_cip _ _ Hb)
    as (ob & ab & Hmsg & Hlen & Hval); [cbn; lia|].
  exists ob, ab.
  split; [vm_compute; reflexivity|]. split; [exact Hb|].
  rewrite Hmsg. repeat split; assumption.
Defined.

End MaskWire.

(** ** What the write constructor builds *)

Section WriteInitMessage.
Import TagServiceRequestPacket.
Import WriteTagRequestPacket.
Context `{Cip}.

(** X7: for a tag that is not a struct, whose type name is in [DataType]
    and whose request path is available, the constructor returns a packet
    without error whose message is the service code, the request path, the
    type code on two bytes, the element count on two bytes and the value
    as given (it is not looked at), and keeps the packed type code. *)
Theorem write_init_atomic_message :
  forall (service : bytes) (tag : string) (elements : Z)
         (tag_info : TagInfo) (request_id : Z) (use_instance_id : bool)
         (value : pyobj) (request_path : option bytes) (path : bytes)
         (code : Z),
    resolved_path tag tag_info use_instance_id request_path = Some path ->
    ti_tag_type tag_info <> "struct" ->
    DataType (ti_data_type_name tag_info) = Some code ->
    0 <= code < 65536 ->
    0 <= elements < 65536 ->
    exists p,
      __init___with service tag elements tag_info request_id use_instance_id
        value request_path = Ok p /\
      _msg (super p)
      = [PyBytes service; PyBytes path; PyBytes (le_bytes 2 code);
         PyBytes (le_bytes 2 elements); value] /\
      _packed_data_type p = Some (le_bytes 2 code) /\
      TagServiceRequestPacket.request_path (super p) = Some path /\
      error (super p) = None /\
      WriteTagRequestPacket.value p = value /\
      data_type p = ti_data_type_name tag_info.
Proof.
  intros service tag elements tag_info request_id use_instance_id value
    request_path path code Hpath Hs Hd Hcode Hel.
  unfold __init___with.
  cbn [super set_super TagServiceRequestPacket.__init__ set_request_path
       TagServiceRequestPacket.request_path data_type].
  rewrite Hpath.
  destruct (String.eqb_spec (ti_tag_type tag_info) "struct");
    [contradiction|].
  rewrite Hd, (Pack_uint_ok code Hcode). cbn [rbind].
  rewrite (Pack_uint_ok elements Hel). cbn [rbind].
  eexists. split; [reflexivity|]. repeat split.
Qed.

(** X8: for a struct tag with a structure handle, a value given as bytes
    and a request path, the constructor returns a packet without error;
    the packed type is the marker [A0 02] followed by the structure
    handle on two bytes, four bytes in all, and the message is the service
    code, the request path, that packed type, the element count and the
    bytes of the value. *)
Theorem write_init_struct_message :
  forall (service : bytes) (tag : string) (elements : Z)
         (tag_info : TagInfo) (request_id : Z) (use_instance_id : bool)
         (b : bytes) (request_path : option bytes) (path : bytes)
         (handle : Z),
    resolved_path tag tag_info use_instance_id request_path = Some path ->
    ti_tag_type tag_info = "struct" ->
    ti_data_type tag_info = Template handle ->
    0 <= handle < 65536 ->
    0 <= elements < 65536 ->
    exists p,
      __init___with service tag elements tag_info request_id use_instance_id
        (PyBytes b) request_path = Ok p /\
      _packed_data_type p = Some ([xa0; x02] ++ le_bytes 2 handle) /\
      len ([xa0; x02] ++ le_bytes 2 handle) = 4 /\
      _msg (super p)
      = [PyBytes service; PyBytes path;
         PyBytes ([xa0; x02] ++ le_bytes 2 handle);
         PyBytes (le_bytes 2 elements); PyBytes b] /\
      error (super p) = None.
Proof.
  intros service tag elements tag_info request_id use_instance_id b
    request_path path handle Hpath Hs Ht Hh Hel.
  unfold __init___with.
  cbn [super set_super TagServiceRequestPacket.__init__ set_request_path
       TagServiceRequestPacket.request_path data_type].
  rewrite Hpath, Hs. cbn [String.eqb Ascii.eqb Bool.eqb].
  rewrite Ht, (Pack_uint_ok handle Hh). cbn [rbind].
  rewrite (Pack_uint_ok elements Hel). cbn [rbind].
  eexists. split; [reflexivity|]. repeat split.
Qed.

End WriteInitMessage.

Section WriteInitMessageExamples.
Import TagServiceRequestPacket.
Import WriteTagRequestPacket.

Lemma write_init_atomic_message_witness :
  exists p,
    @__init__ example_cip "level" 4 dint_info 3 true
      (PyList [1; 2; 3; 4]) None = Ok p /\
    _packed_data_type p = Some [xc4; x00] /\
    length (_msg (super p)) = 5%nat.
Proof.
  destruct (@write_init_atomic_message example_cip [x4d] "level" 4
              dint_info 3 true (PyList [1; 2; 3; 4]) None _ 0xC4 eq_refl)
    as (p & Hp & Hm & Hpd & _).
  - discriminate.
  - reflexivity.
  - lia.
  - lia.
  - exists p. split; [exact Hp|]. split; [exact Hpd|].
    rewrite Hm. reflexivity.
Defined.

Lemma write_init_struct_message_witness :
  exists p,
    @__init__ example_cip "recipe" 1 udt_info 3 true
      (PyBytes (repeat x11 20)) None = Ok p /\
    _packed_data_type p = Some [xa0; x02; x34; x12].
Proof.
  destruct (@write_init_struct_message example_cip [x4d] "recipe" 1
              udt_info 3 true (repeat x11 20) None _ 0x1234 eq_refl)
    as (p & Hp & Hpd & _).
  - reflexivity.
  - reflexivity.
  - lia.
  - lia.
  - exists p. split; [exact Hp | exact Hpd].
Defined.

End WriteInitMessageExamples.

(** ** The shape of the segments *)

Section ChunksOf.
Context {A : Type}.

Lemma chunks_of_length (l : list A) (size : Z) :
  length (chunks_of l size)
  = Z.to_nat ((len l - 0 + size - 1) / size).
Proof. unfold chunks_of. now rewrite length_map, length_seq. Qed.

Lemma chunks_of_nth (l : list A) (size : Z) (k : nat) :
  (k < length (chunks_of l size))%nat ->
  nth k (chunks_of l size) []
  = firstn (Z.to_nat size) (skipn (k * Z.to_nat size) l).
Proof.
  intros Hk. rewrite chunks_of_length in Hk. unfold chunks_of.
  rewrite (nth_indep _ []
             (firstn (Z.to_nat size) (skipn (0 * Z.to_nat size) l)))
    by (rewrite length_map, length_seq; exact Hk).
  rewrite (map_nth (fun k => firstn (Z.to_nat size)
                               (skipn (k * Z.to_nat size) l))).
  now rewrite seq_nth.
Qed.

Lemma chunks_of_concat (l : list A) (size : Z) :
  0 < size -> concat (chunks_of l size) = l.
Proof.
  intros Hs. unfold chunks_of. rewrite chunks_concat. cbn [Nat.mul skipn].
  apply firstn_all2.
  pose proof (segment_count_covers (len l) size (len_nonneg l) Hs) as Hc.
  unfold len in Hc. rewrite Nat2Z.id in Hc. exact Hc.
Qed.

(** The last segment starts inside the value. *)
Lemma segment_count_tight (n size : Z) :
  0 <= n -> 0 < size ->
  (0 < Z.to_nat ((n - 0 + size - 1) / size))%nat ->
  ((Z.to_nat ((n - 0 + size - 1) / size) - 1) * Z.to_nat size
   < Z.to_nat n)%nat.
Proof.
  intros Hn Hs Hq.
  pose proof (Z.div_mod (n - 0 + size - 1) size ltac:(lia)) as Hdm.
  pose proof (Z.mod_pos_bound (n - 0 + size - 1) size Hs) as Hm.
  set (q := (n - 0 + size - 1) / size) in *.
  assert (Hq0 : 0 < q) by lia.
  assert (Hz : (q - 1) * size < n) by nia.
  apply Nat2Z.inj_lt. rewrite Nat2Z.inj_mul, Nat2Z.inj_sub by lia.
  rewrite !Z2Nat.id by lia. exact Hz.
Qed.

(** Every segment before the last is full; the last is not empty. *)
Lemma chunks_of_sizes (l : list A) (size : Z) (k : nat) :
  0 < size ->
  (k < length (chunks_of l size))%nat ->
  0 < len (nth k (chunks_of l size) []) <= size /\
  ((S k < length (chunks_of l size))%nat ->
   len (nth k (chunks_of l size) []) = size).
Proof.
  intros Hs Hk. rewrite chunks_of_nth by assumption.
  rewrite chunks_of_length in *.
  pose proof (segment_count_tight (len l) size (len_nonneg l) Hs
                ltac:(lia)) as Ht.
  assert (Hl : Z.to_nat (len l) = length l) by (unfold len; apply Nat2Z.id).
  rewrite Hl in Ht. clear Hl.
  set (q := Z.to_nat ((len l - 0 + size - 1) / size)) in *.
  set (s := Z.to_nat size) in *.
  assert (Hs' : (0 < s)%nat) by (unfold s; lia).
  assert (Hsz : Z.of_nat s = size) by (unfold s; lia).
  assert (Hks : (k * s <= (q - 1) * s)%nat)
    by (apply Nat.mul_le_mono_r; lia).
  unfold len. rewrite length_firstn, length_skipn.
  split; [lia|]. intros Hk'.
  assert (Hks' : (S k * s <= (q - 1) * s)%nat)
    by (apply Nat.mul_le_mono_r; lia).
  cbn [Nat.mul] in Hks'. lia.
Qed.

Lemma segments_of_chunks_starts (l : list A) (size : Z) :
  0 < size ->
  (starts <- range 0 (len l) size ;;
   Ok (map (fun i => slice l i (i + size)) starts))%res
  = Ok (chunks_of l size).
Proof.
  intros Hs. unfold range.
  destruct (Z.eqb_spec size 0) as [E | _]; [lia|].
  destruct (Z.ltb_spec 0 size) as [_ | E]; [|lia].
  cbn [rbind]. rewrite map_map. unfold chunks_of. f_equal.
  apply map_ext. intros k. apply slice_chunk. assumption.
Qed.

End ChunksOf.

Section SegmentShape.
Import WriteTagFragmentedRequestPacket.
Context `{Cip}.

(** X9: with a positive budget a byte-string value is cut into
    [ceil(len / budget)] segments that go on the wire as they are; joined
    in order they are the value, every segment before the last is exactly
    one budget long, and the last one holds between one byte and one
    budget. *)
Theorem opaque_segments_shape :
  forall (b : bytes) (segment_size : Z)
         (pack_func : option (Z -> result bytes)),
    0 < segment_size ->
    let chunks := chunks_of b segment_size in
    segments_of (PyBytes b) segment_size = Ok (map PyBytes chunks) /\
    mapM (segment_bytes_of pack_func) (map PyBytes chunks) = Ok chunks /\
    concat chunks = b /\
    Z.of_nat (length chunks) = (len b + segment_size - 1) / segment_size /\
    (forall k, (k < length chunks)%nat ->
       0 < len (nth k chunks []) <= segment_size) /\
    (forall k, (S k < length chunks)%nat ->
       len (nth k chunks []) = segment_size).
Proof.
  intros b segment_size pack_func Hs chunks.
  split; [|split; [|split; [|split; [|split]]]].
  - unfold segments_of. cbn [py_len rbind].
    pose proof (segments_of_chunks_starts b segment_size Hs) as Hc.
    destruct (range 0 (len b) segment_size) as [starts |];
      cbn [rbind] in *; [|discriminate].
    injection Hc as Hc. fold chunks in Hc. rewrite <- Hc.
    rewrite (mapM_map _ (fun i => PyBytes (slice b i (i + segment_size))))
      by reflexivity.
    now rewrite map_map.
  - apply wire_of_bytes.
  - apply chunks_of_concat. assumption.
  - unfold chunks. rewrite chunks_of_length.
    replace (len b - 0 + segment_size - 1) with (len b + segment_size - 1)
      by lia.
    apply Z2Nat.id. apply Z.div_pos; [pose proof (len_nonneg b)|]; lia.
  - intros k Hk. apply chunks_of_sizes; assumption.
  - intros k Hk. unfold chunks in *.
    apply chunks_of_sizes; [assumption | lia | assumption].
Qed.

End SegmentShape.

Section SegmentShapeExamples.
Import WriteTagFragmentedRequestPacket.

Lemma opaque_segments_shape_witness :
  segments_of (PyBytes (repeat x11 20)) 8
  = Ok [PyBytes (repeat x11 8); PyBytes (repeat x11 8);
        PyBytes (repeat x11 4)] /\
  Z.of_nat (length (chunks_of (repeat x11 20) 8)) = 3.
Proof.
  destruct (opaque_segments_shape (repeat x11 20) 8 None ltac:(lia))
    as (Hs & _ & _ & Hn & _).
  split; [exact Hs | exact Hn].
Defined.

End SegmentShapeExamples.

(** ** The segments of a sequence of elements *)

Section AtomicSegmentShape.
Import WriteTagFragmentedRequestPacket.

Lemma Forall2_nth_len (w : Z) (chunks : list (list Z)) (wire : list bytes) :
  Forall2 (fun c bs => len bs = w * len c) chunks wire ->
  forall k, (k < length chunks)%nat ->
    len (nth k wire []) = w * len (nth k chunks []).
Proof.
  induction 1 as [| c bs cs bss Hc _ IH]; intros k Hk;
    [cbn in Hk; lia|].
  destruct k as [| k]; [exact Hc|].
  cbn [nth]. apply IH. cbn in Hk. lia.
Qed.

(** Runs of elements that each pack to [w] bytes: every run goes on the
    wire as the packed elements joined in order. *)
Lemma wire_of_lists (f : Z -> result bytes) (w : Z)
    (chunks : list (list Z)) :
  (forall x, In x (concat chunks) -> exists bs, f x = Ok bs /\ len bs = w) ->
  exists wire,
    mapM (segment_bytes_of (Some f)) (map PyList chunks) = Ok wire /\
    Forall2 (fun c bs => exists packed,
                           mapM f c = Ok packed /\ bs = join packed)
      chunks wire /\
    Forall2 (fun c bs => len bs = w * len c) chunks wire /\
    len (concat wire) = w * len (concat chunks).
Proof.
  induction chunks as [| c cs IH]; intros Hf.
  - exists []. split; [reflexivity|]. split; [constructor|].
    split; [constructor|]. unfold len. cbn. lia.
  - destruct (packed_width f w c) as (packed & Hp & Hl).
    { intros x Hx. apply Hf. cbn [concat]. apply in_or_app. now left. }
    destruct IH as (wire & Hw & Hpk & Hlen & Hsum).
    { intros x Hx. apply Hf. cbn [concat]. apply in_or_app. now right. }
    exists (join packed :: wire).
    split; [|split; [|split]].
    + cbn [map mapM segment_bytes_of]. rewrite Hp. cbn [rbind].
      rewrite Hw. reflexivity.
    + constructor; [now exists packed | exact Hpk].
    + constructor; [exact Hl | exact Hlen].
    + rewrite len_concat_cons. cbn [concat]. rewrite len_app, Hl, Hsum. lia.
Qed.

(** X14: with a positive budget, a value given as a sequence of elements
    is cut into runs of [budget] elements, the last one holding what is
    left; joined in order the runs are the value. With a packer that gives
    [w] bytes per element, each run goes on the wire as its elements packed
    one by one and joined, so every run before the last takes [w * budget]
    bytes, which is more than the budget as soon as [w > 1], no run takes
    more, and the runs take [w * len(value)] bytes in all. *)
Theorem atomic_segments_shape :
  forall (l : list Z) (segment_size w : Z) (f : Z -> result bytes),
    0 < segment_size ->
    (forall x, In x l -> exists bs, f x = Ok bs /\ len bs = w) ->
    let chunks := chunks_of l segment_size in
    segments_of (PyList l) segment_size = Ok (map PyList chunks) /\
    concat chunks = l /\
    exists wire,
      mapM (segment_bytes_of (Some f)) (map PyList chunks) = Ok wire /\
      Forall2 (fun c bs => exists packed,
                             mapM f c = Ok packed /\ bs = join packed)
        chunks wire /\
      (forall k, (S k < length chunks)%nat ->
         len (nth k wire []) = w * segment_size) /\
      (forall k, (k < length chunks)%nat ->
         w <= len (nth k wire []) <= w * segment_size) /\
      len (concat wire) = w * len l.
Proof.
  intros l segment_size w f Hs Hf chunks.
  assert (Hconcat : concat chunks = l) by (apply chunks_of_concat; exact Hs).
  split; [|split; [exact Hconcat|]].
  - unfold segments_of. cbn [py_len rbind].
    pose proof (segments_of_chunks_starts l segment_size Hs) as Hc.
    destruct (range 0 (len l) segment_size) as [starts |];
      cbn [rbind] in *; [|discriminate].
    injection Hc as Hc. fold chunks in Hc. rewrite <- Hc.
    rewrite (mapM_map _ (fun i => PyList (slice l i (i + segment_size))))
      by reflexivity.
    now rewrite map_map.
  - destruct (wire_of_lists f w chunks) as (wire & Hw & Hpk & Hlen & Hsum).
    { rewrite Hconcat. exact Hf. }
    exists wire. split; [exact Hw|]. split; [exact Hpk|].
    subst chunks. split; [|split].
    + intros k Hk.
      rewrite (Forall2_nth_len w _ wire Hlen k) by lia.
      f_equal. apply (chunks_of_sizes l segment_size k Hs); [lia | exact Hk].
    + intros k Hk.
      pose proof (len_nonneg (nth k wire [])) as Hnn.
      rewrite (Forall2_nth_len w _ wire Hlen k) in * by exact Hk.
      destruct (chunks_of_sizes l segment_size k Hs Hk) as (Hb & _).
      nia.
    + now rewrite Hsum, Hconcat.
Qed.

(** X12: the budget is the step of the [range] that gives the segment
    starts. A budget of zero makes it raise [ValueError], for any value
    that has a length; a negative budget gives no segment at all. *)
Theorem segments_of_degenerate_budget :
  forall (value : pyobj) (n : Z),
    py_len value = Ok n ->
    segments_of value 0 = Raise ValueError /\
    (forall segment_size : Z,
       segment_size < 0 -> segments_of value segment_size = Ok []).
Proof.
  intros value n Hlen.
  assert (Hn : 0 <= n).
  { destruct value; cbn in Hlen; try discriminate;
      injection Hlen as <-; apply len_nonneg. }
  unfold segments_of. rewrite Hlen. cbn [rbind]. split; [reflexivity|].
  intros segment_size Hneg. unfold range.
  destruct (Z.eqb_spec segment_size 0) as [E | _]; [lia|].
  destruct (Z.ltb_spec 0 segment_size) as [E | _]; [lia|].
  assert (Hcount :
    Z.to_nat ((0 - n - segment_size - 1) / - segment_size) = 0%nat).
  { assert ((0 - n - segment_size - 1) / - segment_size < 1)
      by (apply Z.div_lt_upper_bound; lia).
    lia. }
  rewrite Hcount. reflexivity.
Qed.

End AtomicSegmentShape.

Section AtomicSegmentShapeExamples.
Import WriteTagFragmentedRequestPacket.

Lemma atomic_segments_shape_witness :
  segments_of (PyList [1; 2; 3; 4]) 3 = Ok [PyList [1; 2; 3]; PyList [4]] /\
  exists wire,
    mapM (segment_bytes_of (Some Pack_dint)) [PyList [1; 2; 3]; PyList [4]]
    = Ok wire /\
    len (nth 0 wire []) = 12.
Proof.
  destruct (atomic_segments_shape [1; 2; 3; 4] 3 4 Pack_dint ltac:(lia))
    as (Hs & _ & wire & Hw & _ & Hfull & _).
  - intros x Hx. cbn in Hx.
    destruct Hx as [<- | [<- | [<- | [<- | []]]]];
      eexists; (split; [reflexivity|]); reflexivity.
  - split; [exact Hs|]. exists wire. split; [exact Hw|].
    apply (Hfull 0%nat). vm_compute. lia.
Defined.

Lemma segments_of_degenerate_budget_witness :
  segments_of (PyBytes (repeat x11 20)) 0 = Raise ValueError /\
  segments_of (PyBytes (repeat x11 20)) (-3) = Ok [].
Proof.
  destruct (segments_of_degenerate_budget (PyBytes (repeat x11 20)) 20
              eq_refl) as (Hzero & Hneg).
  split; [exact Hzero|]. apply (Hneg (-3)). lia.
Defined.

End AtomicSegmentShapeExamples.

(** ** from_request of a fragmented write *)

Section WriteFromRequest.
Import TagServiceRequestPacket.
Import WriteTagRequestPacket.
Import WriteTagFragmentedRequestPacket.
Context `{Cip}.

(** X11: [from_request] of a fragmented write does not reuse the request
    path of the write it is given: whenever it returns a packet, that
    packet's path is the one the path compiler gives for the tag, while
    tag, element count, tag_info, request id, addressing flag and value
    are those of the write. *)
Theorem write_from_request_recompiles_path :
  forall (request : WriteTagRequestPacket.t) (p : t),
    from_request request = Ok p ->
    TagServiceRequestPacket.request_path (super p)
    = tag_request_path (tag (super request)) (tag_info (super request))
        (_use_instance_id (super request)) /\
    tag (super p) = tag (super request) /\
    elements (super p) = elements (super request) /\
    tag_info (super p) = tag_info (super request) /\
    request_id (super p) = request_id (super request) /\
    _use_instance_id (super p) = _use_instance_id (super request) /\
    value p = value request.
Proof.
  intros request p. unfold from_request, __init__, __init___with.
  unfold resolved_path. cbn [truthy_bytes].
  cbn [super set_super TagServiceRequestPacket.__init__ set_request_path
       TagServiceRequestPacket.request_path data_type].
  destruct (tag_request_path (tag (super request)) (tag_info (super request))
              (_use_instance_id (super request))) as [path |].
  - match goal with
    | |- (packed <- ?c ;; _)%res = _ -> _ => destruct c as [packed |]
    end; cbn [rbind]; [|discriminate].
    destruct (Pack_uint (elements (super request))); cbn [rbind];
      [|discriminate].
    intros [= <-]. repeat split.
  - intros [= <-]. repeat split.
Qed.

End WriteFromRequest.

Section WriteFromRequestExamples.
Import TagServiceRequestPacket.
Import WriteTagRequestPacket.
Import WriteTagFragmentedRequestPacket.

Lemma write_from_request_recompiles_path_witness :
  exists r p,
    explicit_path_write = Ok r /\
    TagServiceRequestPacket.request_path (super r)
    = Some [x20; x6b; x25; x00; x2a; x00] /\
    @from_request example_cip r = Ok p /\
    TagServiceRequestPacket.request_path (super p)
    = Some [x91; x05; x6c; x65; x76; x65; x6c; x00].
Proof.
  eexists. eexists.
  split; [vm_compute; reflexivity|]. split; [reflexivity|].
  match goal with
  | |- ?lhs = Ok _ /\ _ =>
      let v := eval vm_compute in lhs in
      match v with
      | Ok ?pv => assert (Hp : lhs = Ok pv) by (vm_compute; reflexivity)
      end
  end.
  split; [exact Hp|].
  destruct (@write_from_request_recompiles_path example_cip _ _ Hp)
    as (Hpath & _).
  rewrite Hpath. reflexivity.
Defined.

End WriteFromRequestExamples.

(** ** Packing an offset *)

Section PackOffset.
Context `{Cip}.

Lemma Pack_udint_ok (z : Z) :
  0 <= z < 4294967296 -> Pack_udint z = Ok (le_bytes 4 z).
Proof.
  intros [H0 H1]. unfold Pack_udint.
  destruct (Z.leb_spec 0 z); [|lia].
  destruct (Z.ltb_spec z 4294967296); [|lia]. reflexivity.
Qed.

End PackOffset.

(** ** Sends that return nothing *)

Section SendsRaise.
Import TagServiceRequestPacket.
Context `{Cip} `{Base}.

(** X10: a fragmented write whose request path cannot be built is still
    constructed, with the error attached and an empty message; [send] on
    it hands nothing to the transport, reads no reply, and raises
    [TypeError], since the failure response is built without the request
    its class requires: the error text does not reach the caller. *)
Theorem write_without_path_is_not_sent :
  forall (tag : string) (elements : Z) (tag_info : TagInfo)
         (request_id : Z) (use_instance_id : bool) (value : pyobj)
         (request_path : option bytes),
    WriteTagRequestPacket.resolved_path tag tag_info use_instance_id
      request_path = None ->
    exists p,
      WriteTagFragmentedRequestPacket.__init__ tag elements tag_info
        request_id use_instance_id value request_path = Ok p /\
      error (WriteTagRequestPacket.super p)
      = Some "Failed to create request path for tag" /\
      _msg (WriteTagRequestPacket.super p) = [] /\
      forall d,
        WriteTagFragmentedRequestPacket.send p d = (Raise TypeError, d).
Proof.
  intros tag elements tag_info request_id use_instance_id value request_path
    Hpath.
  destruct (write_init_no_path
              WriteTagFragmentedRequestPacket.tag_service tag elements
              tag_info request_id use_instance_id value request_path Hpath)
    as (p & Hp & Herr & Hmsg).
  exists p. split; [exact Hp|]. split; [exact Herr|]. split; [exact Hmsg|].
  intros d. apply write_send_with_error. rewrite Herr. reflexivity.
Qed.

(** X16: [send] of a fragmented read never returns a response, neither a
    reassembled one nor a failure response. Whatever the packet and the
    driver, it raises after at most one message and one reply: with an
    error attached the failure response is built without its request;
    without one, the first pass of the loop ends in the call of the
    response class, if packing or the transport did not fail before. *)
Theorem read_send_never_returns_a_response :
  forall (self : ReadTagFragmentedRequestPacket.t) (d : Driver),
    exists (e : exn) (d' : Driver),
      ReadTagFragmentedRequestPacket.send self d = (Raise e, d') /\
      (d' = d \/
       exists m, d' = advance d [m] 0 \/ d' = advance d [m] 1).
Proof.
  intros self d. unfold ReadTagFragmentedRequestPacket.send.
  destruct (truthy_str (error (ReadTagFragmentedRequestPacket.super self)));
    [exists TypeError, d; split; [reflexivity | now left]|].
  cbn [negb]. unfold bind at 1. unfold pending_count.
  destruct (round_raises self
              (_msg (ReadTagFragmentedRequestPacket.super self)) 0 d)
    as (e & d' & Hround & Hd).
  unfold bind at 1.
  rewrite (rounds_first _ _ _ _ _ _ e d' Hround).
  exists e, d'. split; [reflexivity | exact Hd].
Qed.

(** X17: setting up a fragmented read that has no request path and for
    which the compiler gives none does not fail: the error is attached
    and the message is extended all the same, with [None] where the path
    goes. [send] on that packet hands nothing to the transport and raises
    [TypeError], since the failure response is built without the request
    its class requires. *)
Theorem read_without_path_is_not_sent :
  forall (self : ReadTagFragmentedRequestPacket.t),
    request_path (ReadTagFragmentedRequestPacket.super self) = None ->
    tag_request_path (tag (ReadTagFragmentedRequestPacket.super self))
      (tag_info (ReadTagFragmentedRequestPacket.super self))
      (_use_instance_id (ReadTagFragmentedRequestPacket.super self))
    = None ->
    0 <= elements (ReadTagFragmentedRequestPacket.super self) < 65536 ->
    0 <= ReadTagFragmentedRequestPacket.offset self < 4294967296 ->
    exists p,
      ReadTagFragmentedRequestPacket._setup_message self = Ok p /\
      error (ReadTagFragmentedRequestPacket.super p)
      = Some "Failed to build request path for tag" /\
      _msg (ReadTagFragmentedRequestPacket.super p)
      = _msg (ReadTagFragmentedRequestPacket.super self)
        ++ [PyBytes Services_read_tag_fragmented; PyNone;
            PyBytes
              (le_bytes 2
                 (elements (ReadTagFragmentedRequestPacket.super self)));
            PyBytes (le_bytes 4 (ReadTagFragmentedRequestPacket.offset self))]
      /\
      forall d,
        ReadTagFragmentedRequestPacket.send p d = (Raise TypeError, d).
Proof.
  intros [s o] Hpath Hcompile Hel Hoff.
  cbn [ReadTagFragmentedRequestPacket.super
       ReadTagFragmentedRequestPacket.offset] in *.
  unfold ReadTagFragmentedRequestPacket._setup_message,
    ReadTagRequestPacket._setup_message_with.
  cbn [ReadTagFragmentedRequestPacket.super
       ReadTagFragmentedRequestPacket.offset]. rewrite Hpath.
  cbn [set_request_path request_path tag tag_info _use_instance_id].
  rewrite Hcompile.
  cbn [set_error set_request_path request_path elements _msg].
  rewrite (Pack_uint_ok _ Hel). cbn [rbind].
  rewrite (Pack_udint_ok _ Hoff). cbn [rbind].
  eexists. split; [reflexivity|]. split; [reflexivity|]. split.
  - cbn [ReadTagFragmentedRequestPacket.super _msg set_msg of_path].
    rewrite <- app_assoc. reflexivity.
  - intros d. reflexivity.
Qed.

End SendsRaise.

Section SendsRaiseExamples.
Import TagServiceRequestPacket.

Lemma write_without_path_is_not_sent_witness :
  exists p,
    @WriteTagFragmentedRequestPacket.__init__ example_cip "" 1 dint_info 3
      true (PyBytes [x01; x00; x00; x00]) None = Ok p /\
    @WriteTagFragmentedRequestPacket.send example_cip example_base p
      (driver 500 four_rounds)
    = (Raise TypeError, driver 500 four_rounds).
Proof.
  destruct (@write_without_path_is_not_sent example_cip example_base "" 1
              dint_info 3 true (PyBytes [x01; x00; x00; x00]) None eq_refl)
    as (p & Hp & _ & _ & Hs).
  exists p. split; [exact Hp | apply Hs].
Defined.

Lemma read_without_path_is_not_sent_witness :
  exists p,
    @ReadTagFragmentedRequestPacket._setup_message example_cip unnamed_read
    = Ok p /\
    @ReadTagFragmentedRequestPacket.send example_cip example_base p
      (driver 500 four_rounds)
    = (Raise TypeError, driver 500 four_rounds).
Proof.
  destruct (@read_without_path_is_not_sent example_cip example_base
              unnamed_read)
    as (p & Hp & _ & _ & Hs).
  - reflexivity.
  - reflexivity.
  - cbn. lia.
  - cbn. lia.
  - exists p. split; [exact Hp | apply Hs].
Defined.

End SendsRaiseExamples.

(** ** More on batches *)

Section BatchMore.
Import TagServiceRequestPacket.
Import ReadTagFragmentedRequestPacket.
Import MultiServiceRequestPacket.
Context `{Cip}.

(** X18: the body of a fragmented read inside a batch is its service
    code, its request path and its element count: the offset is not part
    of it. The offset is packed all the same while the request is set up,
    so an offset that does not fit four unsigned bytes makes the body
    fail with [struct.error]. *)
Theorem batch_body_of_fragmented_read :
  forall (f : ReadTagFragmentedRequestPacket.t) (path : bytes),
    TagServiceRequestPacket.request_path (super f) = Some path ->
    0 <= elements (super f) < 65536 ->
    (0 <= offset f < 4294967296 ->
     exists f',
       request_message (Fragmented f)
       = Ok (Fragmented f',
             Services_read_tag_fragmented ++ path
             ++ le_bytes 2 (elements (super f))) /\
       TagServiceRequestPacket._msg (super f')
       = TagServiceRequestPacket._msg (super f)
         ++ [PyBytes Services_read_tag_fragmented; PyBytes path;
             PyBytes (le_bytes 2 (elements (super f)));
             PyBytes (le_bytes 4 (offset f))]) /\
    (offset f < 0 \/ 4294967296 <= offset f ->
     request_message (Fragmented f) = Raise StructError).
Proof.
  intros [s o] path Hpath Hel. cbn [super offset] in *.
  unfold request_message, setup_request,
    ReadTagFragmentedRequestPacket._setup_message,
    ReadTagRequestPacket._setup_message_with.
  cbn [super offset]. rewrite Hpath. rewrite (Pack_uint_ok _ Hel).
  cbn [rbind]. split.
  - intros Hoff. rewrite (Pack_udint_ok _ Hoff). cbn [rbind].
    cbn [attributes super TagServiceRequestPacket.set_msg elements
         TagServiceRequestPacket.request_path].
    rewrite (Pack_uint_ok _ Hel). cbn [rbind]. rewrite Hpath.
    cbn [of_path join_objs rbind tag_service_of]. rewrite app_nil_r.
    eexists. split; [reflexivity|].
    cbn [super TagServiceRequestPacket._msg TagServiceRequestPacket.set_msg
         of_path].
    rewrite <- app_assoc. reflexivity.
  - intros Hoff. unfold Pack_udint.
    destruct (Z.leb_spec 0 o); destruct (Z.ltb_spec o 4294967296);
      cbn [andb rbind]; try reflexivity; lia.
Qed.

Lemma pack_offsets_too_large (messages : list bytes) :
  forall o : Z,
    0 <= o ->
    Exists (fun x => 65536 <= x) (offsets_from o (map len messages)) ->
    pack_offsets o messages = Raise StructError.
Proof.
  induction messages as [| m ms IH]; intros o Ho Hex; cbn [map offsets_from]
    in Hex.
  - inversion Hex.
  - cbn [pack_offsets]. unfold Pack_uint at 1.
    destruct (Z.leb_spec 0 o); [|lia].
    destruct (Z.ltb_spec o 65536) as [Hlt | Hge]; cbn [andb rbind];
      [|reflexivity].
    inversion Hex as [? ? Hhd | ? ? Htl]; subst; [lia|].
    rewrite IH; [reflexivity | pose proof (len_nonneg m); lia | assumption].
Qed.

(** X19: a batch whose bodies materialise but one of whose offsets would
    be 65536 or more cannot be built: [build_message] raises
    [struct.error] and returns no message. *)
Theorem build_message_rejects_large_batch :
  forall (self : t) (done : list (read_request * bytes)),
    mapM request_message (requests self) = Ok done ->
    len (requests self) < 65536 ->
    Exists (fun o => 65536 <= o)
      (offsets_from (2 + 2 * len (requests self)) (map len (map snd done))) ->
    build_message self = Raise StructError.
Proof.
  intros self done Hdone Hn Hex. unfold build_message.
  cbv beta zeta. cbn [_msg set_msg requests set_requests].
  rewrite Pack_uint_ok by (pose proof (len_nonneg (requests self)); lia).
  cbn [rbind]. rewrite Hdone. cbn [rbind].
  replace (2 + len (requests self) * 2) with (2 + 2 * len (requests self))
    by lia.
  rewrite pack_offsets_too_large;
    [reflexivity | pose proof (len_nonneg (requests self)); lia | exact Hex].
Qed.

End BatchMore.

(** ** Batches built and decoded *)

Section BatchRoundTrip.
Import TagServiceRequestPacket.
Import ReadTagFragmentedRequestPacket.
Import MultiServiceRequestPacket.
Import MultiServiceResponsePacket.

(** [_parse_reply] on a buffer that starts with a count and that many
    offsets. *)
Lemma parse_reply_run (self : MultiServiceResponsePacket.t)
    (offs : list Z) (rest : bytes) :
  offs <> [] ->
  len offs < 65536 ->
  Forall (fun o => 0 <= o < 65536) offs ->
  data self = le_bytes 2 (len offs) ++ table offs ++ rest ->
  _parse_reply self
  = Ok {| request := request self; data := data self;
          responses :=
            responses self ++
            map response_of
              (combine (reply_slices (data self) offs)
                 (requests (request self))) |}.
Proof.
  intros Hne Hn Hrange Hdata.
  pose proof (len_nonneg offs) as Hn0.
  unfold _parse_reply. rewrite Hdata.
  rewrite Unpack_uint_Pack by lia. cbn [rbind].
  rewrite offset_data_table, range_table. cbn [rbind].
  pose proof (table_chunks offs [] 0 eq_refl) as Hc.
  cbn [app] in Hc. rewrite Hc. clear Hc.
  destruct offs as [| o os]; [contradiction|].
  cbn [map]. rewrite <- (map_cons (le_bytes 2) o os).
  rewrite unpack_table by assumption. cbn [rbind].
  rewrite <- Hdata. reflexivity.
Qed.



(** X21: on a buffer that starts with a count [n >= 1] and [n] offsets,
    [_parse_reply] pairs the slices with the operations of the request by
    position and stops at the shorter of the two: it appends
    [min(n, len(requests))] responses, the [k]-th made from operation
    [k] and from 46 zero bytes followed by slice [k]; slices or operations
    beyond that are left out without an error. *)
Theorem parse_reply_pairs_by_position :
  forall (self : MultiServiceResponsePacket.t) (offs : list Z)
         (rest : bytes),
    offs <> [] ->
    len offs < 65536 ->
    Forall (fun o => 0 <= o < 65536) offs ->
    data self = le_bytes 2 (len offs) ++ table offs ++ rest ->
    exists new,
      _parse_reply self
      = Ok {| request := request self; data := data self;
              responses := responses self ++ new |} /\
      length new = Nat.min (length offs) (length (requests (request self)))
      /\
      forall k req,
        (k < length offs)%nat ->
        nth_error (requests (request self)) k = Some req ->
        nth_error new k
        = Some (TagServiceResponsePacket.__init__ (attributes req)
                  (repeat x00 46 ++ nth k (reply_slices (data self) offs) [])).
Proof.
  intros self offs rest Hne Hn Hrange Hdata.
  eexists. split; [apply (parse_reply_run self offs rest); assumption|].
  split.
  - now rewrite length_map, length_combine, reply_slices_length.
  - intros k req Hk Hreq.
    rewrite nth_error_map.
    assert (Hs : nth_error (reply_slices (data self) offs) k
                 = Some (nth k (reply_slices (data self) offs) [])).
    { apply nth_error_nth'. now rewrite reply_slices_length. }
    assert (Hc : nth_error
                   (combine (reply_slices (data self) offs)
                      (requests (request self))) k
                 = Some (nth k (reply_slices (data self) offs) [], req)).
    { revert Hs Hreq. generalize (nth k (reply_slices (data self) offs) []).
      generalize (reply_slices (data self) offs).
      generalize (requests (request self)). clear.
      intros rs ss. revert rs k.
      induction ss as [| s ss IH]; intros rs k x Hs Hr.
      - destruct k; discriminate Hs.
      - destruct rs as [| r rs]; [destruct k; discriminate Hr|].
        destruct k as [| k]; cbn [combine nth_error] in *.
        + congruence.
        + now apply IH. }
    rewrite Hc. reflexivity.
Qed.


End BatchRoundTrip.

Section BatchMoreExamples.
Import TagServiceRequestPacket.
Import ReadTagFragmentedRequestPacket.
Import MultiServiceRequestPacket.
Import MultiServiceResponsePacket.

Lemma batch_body_of_fragmented_read_witness :
  (exists f',
     @request_message example_cip (Fragmented fragmented_read)
     = Ok (Fragmented f', [x52; x91; x04; x64; x61; x74; x61; x0a; x00])) /\
  @request_message example_cip (Fragmented negative_offset_read)
  = Raise StructError.
Proof.
  destruct (@batch_body_of_fragmented_read example_cip fragmented_read
              [x91; x04; x64; x61; x74; x61] eq_refl)
    as (Hok & _); [cbn; lia|].
  destruct (@batch_body_of_fragmented_read example_cip negative_offset_read
              [x91; x04; x64; x61; x74; x61] eq_refl)
    as (_ & Hbad); [cbn; lia|].
  split.
  - destruct Hok as (f' & Hf & _); [cbn; lia|]. exists f'. exact Hf.
  - apply Hbad. left. cbn. lia.
Defined.


Lemma parse_reply_pairs_by_position_witness :
  exists new,
    _parse_reply short_reply
    = Ok {| request := example_batch; data := data short_reply;
            responses := new |} /\
    length new = 2%nat /\
    length (requests example_batch) = 3%nat.
Proof.
  destruct (parse_reply_pairs_by_position short_reply [6; 9]
              [x0a; x0b; x0c; x0d; x0e])
    as (new & Hp & Hl & _).
  - discriminate.
  - reflexivity.
  - repeat constructor; discriminate.
  - reflexivity.
  - exists new. split; [exact Hp|]. split; [exact Hl | reflexivity].
Defined.


End BatchMoreExamples.

Section LargeBatchExample.
Import MultiServiceRequestPacket.

Lemma build_message_rejects_large_batch_witness :
  @build_message example_cip large_batch = Raise StructError.
Proof.
  destruct (@request_message_plain example_cip
              {| TagServiceRequestPacket.tag := "t";
                 TagServiceRequestPacket.elements := 1;
                 TagServiceRequestPacket.tag_info := dint_info;
                 TagServiceRequestPacket.request_id := 1;
                 TagServiceRequestPacket._use_instance_id := true;
                 TagServiceRequestPacket.request_path :=
                   Some (repeat x01 (Z.to_nat 70000));
                 TagServiceRequestPacket._msg := [];
                 TagServiceRequestPacket.error := None |}
              (repeat x01 (Z.to_nat 70000)) eq_refl)
    as (p1 & H1); [cbn [TagServiceRequestPacket.elements]; lia|].
  destruct (@request_message_plain example_cip
              {| TagServiceRequestPacket.tag := "t";
                 TagServiceRequestPacket.elements := 1;
                 TagServiceRequestPacket.tag_info := dint_info;
                 TagServiceRequestPacket.request_id := 1;
                 TagServiceRequestPacket._use_instance_id := true;
                 TagServiceRequestPacket.request_path := Some [x02; x03];
                 TagServiceRequestPacket._msg := [];
                 TagServiceRequestPacket.error := None |}
              [x02; x03] eq_refl)
    as (p2 & H2); [cbn [TagServiceRequestPacket.elements]; lia|].
  apply (@build_message_rejects_large_batch example_cip large_batch
           [(ReadTagFragmentedRequestPacket.Plain p1,
             [x4c] ++ repeat x01 (Z.to_nat 70000) ++ le_bytes 2 1);
            (ReadTagFragmentedRequestPacket.Plain p2,
             [x4c] ++ [x02; x03] ++ le_bytes 2 1)]).
  - unfold large_batch, __init__, read_with_path. cbn [requests mapM].
    unfold bytes in *. rewrite H1. cbn [rbind]. rewrite H2. reflexivity.
  - reflexivity.
  - apply Exists_cons_tl. apply Exists_cons_hd.
    assert (Hr : len (repeat x01 (Z.to_nat 70000)) = 70000)
      by (unfold len; rewrite repeat_length; lia).
    cbn [snd]. rewrite !len_app, Hr.
    change (len (requests large_batch)) with 2.
    pose proof (len_nonneg [x4c]).
    pose proof (len_nonneg (le_bytes 2 1)).
    lia.
Defined.

End LargeBatchExample.

(** ** Decoding read replies *)

Lemma slice_to_from {A} (b : list A) (k : Z) :
  (slice_to b k ++ slice_from b k)%list = b.
Proof. unfold slice_to, slice_from. apply firstn_skipn. Qed.

Lemma slice_to_len {A} (b : list A) (k : Z) :
  0 <= k -> len (slice_to b k) = Z.min k (len b).
Proof.
  intros Hk. unfold slice_to, slice_index, len.
  destruct (k <? 0) eqn:E; [apply Z.ltb_lt in E; lia|].
  rewrite length_firstn. unfold len. lia.
Qed.

Section ReadReplies.
Context `{Cip}.
Variable parsed_type : bytes -> TagInfo -> Z -> string.
Variable str_of : exn -> string.
Variable STRUCTURE_READ_REPLY : bytes.

Lemma fragmented_parse_reply_super (self : ReadTagFragmentedResponsePacket.t) :
  ReadTagFragmentedResponsePacket.super
    (ReadTagFragmentedResponsePacket._parse_reply parsed_type str_of
       STRUCTURE_READ_REPLY self)
  = ReadTagFragmentedResponsePacket.super self.
Proof.
  unfold ReadTagFragmentedResponsePacket._parse_reply,
    ReadTagResponsePacket._parse_reply.
  rewrite andb_false_r. cbv zeta.
  destruct (list_eq_dec _ _ _); reflexivity.
Qed.

Lemma fragmented_parse_reply_bytes (self : ReadTagFragmentedResponsePacket.t) :
  ReadTagFragmentedResponsePacket.reply_bytes
    (ReadTagFragmentedResponsePacket._parse_reply parsed_type str_of
       STRUCTURE_READ_REPLY self)
  = Ok (ReadTagResponsePacket.data
          (ReadTagFragmentedResponsePacket.super self)).
Proof.
  unfold ReadTagFragmentedResponsePacket._parse_reply,
    ReadTagResponsePacket._parse_reply,
    ReadTagFragmentedResponsePacket.reply_bytes.
  rewrite andb_false_r. cbv zeta.
  destruct (list_eq_dec _ _ _); cbn; rewrite slice_to_from; reflexivity.
Qed.

(** X23: parsing a fragment's reply decodes nothing and loses nothing: the
    inherited attributes (value, data type, error, data) are left as they
    were, the type tag kept aside is at most four bytes long, and the type
    tag followed by the value bytes is the reply data again, whether or not
    the data starts with the structure marker. *)
Theorem fragmented_reply_split_is_lossless
    (self : ReadTagFragmentedResponsePacket.t) :
  let r := ReadTagFragmentedResponsePacket._parse_reply parsed_type str_of
             STRUCTURE_READ_REPLY self in
  let data := ReadTagResponsePacket.data
                (ReadTagFragmentedResponsePacket.super self) in
  ReadTagFragmentedResponsePacket.super r
    = ReadTagFragmentedResponsePacket.super self /\
  exists tag_bytes value_bytes : bytes,
    ReadTagFragmentedResponsePacket._data_type r = Some tag_bytes /\
    ReadTagFragmentedResponsePacket.value_bytes r = Some value_bytes /\
    (tag_bytes ++ value_bytes)%list = data /\
    len tag_bytes <= 4 /\
    (4 <= len data -> 2 <= len tag_bytes) /\
    (len tag_bytes = 4 -> slice_to data 2 = STRUCTURE_READ_REPLY).
Proof.
  intros r data. split; [apply fragmented_parse_reply_super|].
  subst r data.
  unfold ReadTagFragmentedResponsePacket._parse_reply,
    ReadTagResponsePacket._parse_reply.
  rewrite andb_false_r. cbv zeta.
  set (d := ReadTagResponsePacket.data
              (ReadTagFragmentedResponsePacket.super self)).
  destruct (list_eq_dec _ _ _) as [E|E];
    cbn [ReadTagFragmentedResponsePacket._data_type
         ReadTagFragmentedResponsePacket.value_bytes].
  - exists (slice_to d 4), (slice_from d 4).
    split; [reflexivity|]. split; [reflexivity|].
    split; [apply slice_to_from|].
    rewrite slice_to_len by lia. split; [lia|]. split; [lia|].
    intros _. exact E.
  - exists (slice_to d 2), (slice_from d 2).
    split; [reflexivity|]. split; [reflexivity|].
    split; [apply slice_to_from|].
    rewrite slice_to_len by lia. split; [lia|]. split; [lia|].
    intros Hl. lia.
Qed.

(** X24: after a fragment's reply is parsed, [parse_value] decodes exactly
    the reply data, with the request's tag description and element count.
    It never raises: a decoded value is stored with its data type and the
    error is left alone; a decoder exception clears the value, keeps the
    data type and attaches "Failed to parse reply - " followed by the
    exception text; an invalid response gets no value and no data type.
    The split bytes are kept in every case. *)
Theorem fragmented_parse_value_decodes_reply
    (self : ReadTagFragmentedResponsePacket.t) :
  let s := ReadTagFragmentedResponsePacket.super self in
  let parsed := ReadTagFragmentedResponsePacket._parse_reply parsed_type
                  str_of STRUCTURE_READ_REPLY self in
  let r := ReadTagFragmentedResponsePacket.parse_value parsed_type str_of
             parsed in
  let s' := ReadTagFragmentedResponsePacket.super r in
  let request := ReadTagResponsePacket.request s in
  let decoded :=
    parse_read_reply (ReadTagResponsePacket.data s)
      (TagServiceRequestPacket.tag_info request)
      (TagServiceRequestPacket.elements request) in
  (ReadTagResponsePacket.valid true s = true ->
   forall v, decoded = Ok v ->
     ReadTagResponsePacket.value s' = Some v /\
     ReadTagResponsePacket.data_type s'
       = Some (parsed_type (ReadTagResponsePacket.data s)
                 (TagServiceRequestPacket.tag_info request)
                 (TagServiceRequestPacket.elements request)) /\
     ReadTagResponsePacket._error s' = ReadTagResponsePacket._error s) /\
  (ReadTagResponsePacket.valid true s = true ->
   forall err, decoded = Raise err ->
     ReadTagResponsePacket.value s' = None /\
     ReadTagResponsePacket.data_type s' = ReadTagResponsePacket.data_type s /\
     ReadTagResponsePacket._error s'
       = Some ("Failed to parse reply - " ++ str_of err)%string) /\
  (ReadTagResponsePacket.valid true s = false ->
     ReadTagResponsePacket.value s' = None /\
     ReadTagResponsePacket.data_type s' = None /\
     ReadTagResponsePacket._error s' = ReadTagResponsePacket._error s) /\
  ReadTagResponsePacket.data s' = ReadTagResponsePacket.data s /\
  ReadTagResponsePacket.service_status s'
    = ReadTagResponsePacket.service_status s /\
  ReadTagFragmentedResponsePacket.reply_bytes r
    = Ok (ReadTagResponsePacket.data s).
Proof.
  intros s parsed r s' request decoded.
  assert (Hs : ReadTagFragmentedResponsePacket.super parsed = s)
    by apply fragmented_parse_reply_super.
  assert (Hb : ReadTagFragmentedResponsePacket.reply_bytes parsed
               = Ok (ReadTagResponsePacket.data s))
    by apply fragmented_parse_reply_bytes.
  assert (Hr : ReadTagFragmentedResponsePacket.reply_bytes r
               = ReadTagFragmentedResponsePacket.reply_bytes parsed)
    by reflexivity.
  subst s' r. unfold ReadTagFragmentedResponsePacket.parse_value in *.
  cbv zeta in *. rewrite Hs in *. rewrite Hb in *.
  cbn [rbind ReadTagFragmentedResponsePacket.super] in *.
  fold request. fold decoded.
  destruct (ReadTagResponsePacket.valid true s) eqn:Hv.
  - destruct decoded as [v|err] eqn:Hd; cbn [rbind].
    + split; [intros _ v' Hv'; inversion Hv'; subst v'; cbn; auto|].
      split; [intros _ e He; discriminate He|].
      split; [intros Hf; discriminate Hf|]. cbn. auto.
    + split; [intros _ v' Hv'; discriminate Hv'|].
      split; [intros _ e He; inversion He; subst e; cbn; auto|].
      split; [intros Hf; discriminate Hf|]. cbn. auto.
  - split; [intros Hf; discriminate Hf|].
    split; [intros Hf; discriminate Hf|].
    split; [intros _; cbn; auto|]. cbn. auto.
Qed.

(** X25: for a new response whose status is not "insufficient packets",
    decoding a fragment in two steps ([_parse_reply], then [parse_value])
    leaves the same inherited attributes as the one-step [_parse_reply] of
    a plain read response does, for the same request, reply data, status
    and error: same value, same data type, same error text. *)
Theorem fragmented_decode_agrees_with_plain
    (request : TagServiceRequestPacket.t) (data : bytes)
    (status : option Z) (error : option string) :
  status <> Some INSUFFICIENT_PACKETS ->
  ReadTagFragmentedResponsePacket.super
    (ReadTagFragmentedResponsePacket.parse_value parsed_type str_of
       (ReadTagFragmentedResponsePacket._parse_reply parsed_type str_of
          STRUCTURE_READ_REPLY
          (ReadTagFragmentedResponsePacket.__init__ request data status
             error)))
  = ReadTagResponsePacket._parse_reply parsed_type str_of false false
      (ReadTagResponsePacket.__init__ request data status error).
Proof.
  intros Hstatus.
  set (self := ReadTagFragmentedResponsePacket.__init__ request data status
                 error).
  pose proof (fragmented_parse_reply_super self) as Hs.
  pose proof (fragmented_parse_reply_bytes self) as Hb.
  unfold ReadTagFragmentedResponsePacket.parse_value. cbv zeta.
  rewrite Hs, Hb.
  cbn [rbind ReadTagFragmentedResponsePacket.super].
  subst self.
  cbn [ReadTagFragmentedResponsePacket.__init__
       ReadTagFragmentedResponsePacket.super].
  unfold ReadTagResponsePacket._parse_reply.
  rewrite andb_true_r.
  assert (Hv : ReadTagResponsePacket.valid true
                 (ReadTagResponsePacket.__init__ request data status error)
               = ReadTagResponsePacket.valid false
                   (ReadTagResponsePacket.__init__ request data status
                      error)).
  { unfold ReadTagResponsePacket.valid, is_valid.
    cbn [ReadTagResponsePacket.__init__
         ReadTagResponsePacket.service_status].
    destruct status as [s |]; [|reflexivity].
    cbn [andb]. destruct (Z.eqb_spec s INSUFFICIENT_PACKETS) as [E | E].
    - exfalso. apply Hstatus. now rewrite E.
    - now rewrite orb_false_r. }
  rewrite Hv.
  destruct (ReadTagResponsePacket.valid false _) eqn:Hvalid; [|reflexivity].
  cbn [ReadTagResponsePacket.__init__ ReadTagResponsePacket.request
       ReadTagResponsePacket.data ReadTagResponsePacket.tag_info
       ReadTagResponsePacket.elements].
  destruct (parse_read_reply _ _ _); reflexivity.
Qed.

End ReadReplies.

Section ReadRepliesExamples.

Lemma fragmented_decode_agrees_with_plain_witness :
  ReadTagFragmentedResponsePacket.super
    (@ReadTagFragmentedResponsePacket.parse_value example_cip
       (fun _ _ _ => "DINT") (fun _ => "error")
       (@ReadTagFragmentedResponsePacket._parse_reply example_cip
          (fun _ _ _ => "DINT") (fun _ => "error") [xa0; x02]
          (ReadTagFragmentedResponsePacket.__init__
             (ReadTagFragmentedRequestPacket.super fragmented_read)
             [xc4; x00; x2a; x00; x00; x00] (Some 0) None)))
  = @ReadTagResponsePacket._parse_reply example_cip
      (fun _ _ _ => "DINT") (fun _ => "error") false false
      (ReadTagResponsePacket.__init__
         (ReadTagFragmentedRequestPacket.super fragmented_read)
         [xc4; x00; x2a; x00; x00; x00] (Some 0) None).
Proof.
  apply (@fragmented_decode_agrees_with_plain example_cip).
  cbn. discriminate.
Defined.

End ReadRepliesExamples.
